(** * The sheet analysis pipeline of [models.py]

    A shallow embedding of [robust_clean_data], [validate_data],
    [granger_causality_analysis], [monte_carlo_simulation],
    [analyze_sheets], [print_results] and the script, and the properties
    of the pipeline proved on it.

    The program is written against pandas, numpy and statsmodels.  The part
    of pandas it uses (positional slicing, the two [dropna] forms, [rename],
    column access and assignment, [to_numeric], [astype]) is modelled below
    on a small data frame type.  What those libraries compute and the
    program never inspects (how a text is read as a number, the p-values of
    the causality test, floating point arithmetic, the random draws) is kept
    abstract in the class [Library]. *)

From Stdlib Require Import String Ascii DecimalString.
From Stdlib Require Import Bool Arith ZArith QArith Lia List.
Import ListNotations.
Close Scope Q_scope.
Local Open Scope nat_scope.
Local Open Scope list_scope.

(** ** Values *)

(** Numbers as pandas holds them: Python integers, finite floats (their
    value as a rational) and the two infinities. *)
Inductive number : Type :=
| NInt (z : Z)
| NFloat (q : Q)
| NInf (negative : bool).

(** A cell of a sheet: missing ([None], [nan]), a number, or text.  The
    labels of a frame are cells too, since [robust_clean_data] promotes the
    first row of a sheet to its header. *)
Inductive cell : Type :=
| NaN
| Num (n : number)
| Str (s : string).

Definition number_eq_dec (a b : number) : {a = b} + {a <> b}.
Proof.
  decide equality.
  - apply Z.eq_dec.
  - destruct q as [n1 d1], q0 as [n2 d2].
    destruct (Z.eq_dec n1 n2); [ | right; congruence ].
    destruct (Pos.eq_dec d1 d2); [ left | right ]; congruence.
  - apply Bool.bool_dec.
Defined.

Definition cell_eq_dec (a b : cell) : {a = b} + {a <> b}.
Proof.
  decide equality.
  - apply number_eq_dec.
  - apply string_dec.
Defined.

Definition cell_eqb (a b : cell) : bool :=
  if cell_eq_dec a b then true else false.

(** Python's [==] on two numbers: by value, whatever their types, so that
    [1 == 1.0]. *)
Definition number_value_eqb (a b : number) : bool :=
  match a, b with
  | NInt x, NInt y => (x =? y)%Z
  | NInt x, NFloat q => Qeq_bool (inject_Z x) q
  | NFloat q, NInt x => Qeq_bool q (inject_Z x)
  | NFloat p, NFloat q => Qeq_bool p q
  | NInf s, NInf t => Bool.eqb s t
  | _, _ => false
  end.

(** Python's [a != b] on two labels: numbers are compared by value, a text
    is different from a number, and a missing label, which is [nan] in a
    frame read by pandas, is different from every value, itself
    included. *)
Definition py_ne (a b : cell) : bool :=
  match a, b with
  | Str s, Str t => negb (String.eqb s t)
  | Num m, Num n => negb (number_value_eqb m n)
  | _, _ => true
  end.

(** [pd.notna] on one value. *)
Definition notna (c : cell) : bool :=
  match c with NaN => false | _ => true end.

Definition is_number (c : cell) : bool :=
  match c with Num _ => true | _ => false end.

Definition is_int (c : cell) : bool :=
  match c with Num (NInt _) => true | _ => false end.

(** The canonical time axis label. *)
Definition Year : cell := Str "Year"%string.

(** ** Exceptions *)

Inductive exn : Type := IndexError | KeyError | TypeError | ValueError.

Inductive result (A : Type) : Type :=
| Ok (a : A)
| Raise (e : exn).

Arguments Ok {A} a.
Arguments Raise {A} e.

Definition bind {A B : Type} (m : result A) (k : A -> result B) : result B :=
  match m with
  | Ok a => k a
  | Raise e => Raise e
  end.

Notation "x <- m ;; k" := (bind m (fun x => k))
  (at level 61, m at next level, right associativity).

Fixpoint mapM {A B : Type} (f : A -> result B) (l : list A) : result (list B) :=
  match l with
  | [] => Ok []
  | x :: l' => y <- f x ;; ys <- mapM f l' ;; Ok (y :: ys)
  end.

(** ** Data frames *)

Definition Series : Type := list cell.

(** A frame is its row count (the length of its index) and its columns in
    order, each a label with its values.  Labels may repeat. *)
Record DataFrame : Type := {
  index : nat;
  cols : list (cell * Series)
}.

(** [df.columns] *)
Definition labels (df : DataFrame) : list cell := map fst (cols df).

(** [df[key]] yields a series when one column bears the label and a frame
    when several do. *)
Inductive selection : Type :=
| ASeries (s : Series)
| AFrame (d : DataFrame).

Fixpoint map2 {A B C : Type} (f : A -> B -> C) (l : list A) (l' : list B) : list C :=
  match l, l' with
  | x :: t, y :: t' => f x y :: map2 f t t'
  | _, _ => []
  end.

(** The rows (as a mask over the index) in which none of the series [ss]
    has a missing value. *)
Definition notna_rows (n : nat) (ss : list Series) : list bool :=
  fold_right (fun s mask => map2 andb (map notna s) mask) (repeat true n) ss.

(** Boolean indexing of a series. *)
Fixpoint keep {A : Type} (mask : list bool) (l : list A) : list A :=
  match mask, l with
  | b :: mask', x :: l' => if b then x :: keep mask' l' else keep mask' l'
  | _, _ => []
  end.

Definition count_true (mask : list bool) : nat := length (filter (fun b => b) mask).

(** Boolean indexing of the rows of a frame. *)
Definition take_rows (mask : list bool) (df : DataFrame) : DataFrame :=
  {| index := count_true mask;
     cols := map (fun c => (fst c, keep mask (snd c))) (cols df) |}.

(** [df.iloc[1:]] *)
Definition iloc_from1 (df : DataFrame) : DataFrame :=
  {| index := pred (index df);
     cols := map (fun c => (fst c, tl (snd c))) (cols df) |}.

(** [df.iloc[0]]: the first row, [IndexError] on a frame without rows. *)
Definition iloc0 (df : DataFrame) : result Series :=
  match index df with
  | O => Raise IndexError
  | S _ => Ok (map (fun c => hd NaN (snd c)) (cols df))
  end.

(** [df.columns = new_labels]: [ValueError] on a length mismatch. *)
Definition set_columns (new_labels : Series) (df : DataFrame) : result DataFrame :=
  if length new_labels =? length (cols df)
  then Ok {| index := index df; cols := combine new_labels (map snd (cols df)) |}
  else Raise ValueError.

(** [df.columns[0]] and the like. *)
Definition index_at (l : list cell) (i : nat) : result cell :=
  match nth_error l i with
  | Some c => Ok c
  | None => Raise IndexError
  end.

(** [df.dropna(axis=1, how="all")]: a column stays when it has a value. *)
Definition dropna_columns_all (df : DataFrame) : DataFrame :=
  {| index := index df;
     cols := filter (fun c => existsb notna (snd c)) (cols df) |}.

(** [df.dropna(axis=0, how="any")], which is also [df.dropna()]. *)
Definition dropna_rows (df : DataFrame) : DataFrame :=
  take_rows (notna_rows (index df) (map snd (cols df))) df.

(** The column [c] bears the label [key].  Labels are matched as they are
    written, a missing label matching a missing label as in the lookups of
    pandas.  pandas matches numbers by value, so that the labels [1] and
    [1.0] are one label for it: the statements that depend on the matching
    of labels are about frames with exact labels, on which the two
    agree. *)
Definition has_label (key : cell) (c : cell * Series) : bool := cell_eqb (fst c) key.

(** [df.dropna(subset=keys)]: [KeyError] when a key is no label of [df]. *)
Definition dropna_subset (keys : list cell) (df : DataFrame) : result DataFrame :=
  if forallb (fun key => existsb (has_label key) (cols df)) keys
  then Ok (take_rows
             (notna_rows (index df)
                (map snd (filter (fun c => existsb (cell_eqb (fst c)) keys) (cols df))))
             df)
  else Raise KeyError.

(** [df.rename(columns={old: new})]: every column labelled [old] is renamed.
    pandas looks each label up in the dict, which finds a number by its
    value and a missing label by identity only; the labels are matched
    here as they are written, which is the same on an exact header whose
    first cell is not blank. *)
Definition rename_columns (old new : cell) (df : DataFrame) : DataFrame :=
  {| index := index df;
     cols := map (fun c => (if cell_eqb (fst c) old then new else fst c, snd c)) (cols df) |}.

(** [df[key]] *)
Definition getitem (df : DataFrame) (key : cell) : result selection :=
  match filter (has_label key) (cols df) with
  | [] => Raise KeyError
  | [c] => Ok (ASeries (snd c))
  | cs => Ok (AFrame {| index := index df; cols := cs |})
  end.

(** [df[key] = s]: the columns labelled [key] take the values [s]; a new
    column is appended when there is none. *)
Definition setitem (df : DataFrame) (key : cell) (s : Series) : DataFrame :=
  if existsb (has_label key) (cols df)
  then {| index := index df;
          cols := map (fun c => if has_label key c then (fst c, s) else c) (cols df) |}
  else {| index := index df; cols := cols df ++ [(key, s)] |}.

(** [df[keys]] for a list of labels: the columns bearing each label, in the
    order of [keys]; [KeyError] when a label is absent. *)
Definition getitem_list (df : DataFrame) (keys : list cell) : result DataFrame :=
  cs <- mapM (fun key => match filter (has_label key) (cols df) with
                         | [] => Raise KeyError
                         | l => Ok l
                         end) keys ;;
  Ok {| index := index df; cols := concat cs |}.

(** [Series.astype(int)] on one value: floats are truncated towards zero,
    a missing or infinite value raises.  Text does not reach this point in
    the program (the column has been through [to_numeric]). *)
Definition int_of_value (c : cell) : result cell :=
  match c with
  | Num (NInt z) => Ok (Num (NInt z))
  | Num (NFloat q) => Ok (Num (NInt (Z.quot (Qnum q) (Zpos (Qden q)))))
  | Num (NInf _) => Raise ValueError
  | NaN => Raise ValueError
  | Str _ => Raise ValueError
  end.

(** [df[key].astype(int)]; the frame case is not reached in the program,
    where [to_numeric] has raised on it before. *)
Definition astype_int (arg : selection) : result Series :=
  match arg with
  | ASeries s => mapM int_of_value s
  | AFrame _ => Raise TypeError
  end.

(** The rows of a frame, each the values of the columns at one position. *)
Definition rows_of (df : DataFrame) : list (list cell) :=
  map (fun i => map (fun c => nth i (snd c) NaN) (cols df)) (seq 0 (index df)).

(** [.dropna().values] of a selection: its [len] and its elements. *)
Definition dropna_values (arg : selection) : nat * list cell :=
  match arg with
  | ASeries s => let s' := filter notna s in (length s', s')
  | AFrame d => let d' := dropna_rows d in (index d', concat (rows_of d'))
  end.

(** ** Dictionaries *)

(** A Python [dict] with text keys: insertion ordered, a key that is set
    again keeps its place and takes the new value. *)
Definition dict (V : Type) : Type := list (string * V).

Fixpoint dict_set {V : Type} (d : dict V) (k : string) (v : V) : dict V :=
  match d with
  | [] => [(k, v)]
  | (k', v') :: d' =>
      if String.eqb k k' then (k', v) :: d' else (k', v') :: dict_set d' k v
  end.

Fixpoint dict_get {V : Type} (d : dict V) (k : string) : option V :=
  match d with
  | [] => None
  | (k', v') :: d' => if String.eqb k k' then Some v' else dict_get d' k
  end.

Definition keys {V : Type} (d : dict V) : list string := map fst d.

(** ** Arrays *)

(** A two dimensional array: its shape and its rows. *)
Record ndarray (F : Type) : Type := {
  shape : nat * nat;
  arows : list (list F)
}.

Arguments shape {F} a : rename.
Arguments arows {F} a : rename.

(** [np.zeros((n, p))] *)
Definition zeros {F : Type} (zero : F) (n p : nat) : ndarray F :=
  {| shape := (n, p); arows := repeat (repeat zero p) n |}.

Fixpoint list_set {A : Type} (l : list A) (i : nat) (x : A) : list A :=
  match l, i with
  | [], _ => []
  | _ :: t, O => x :: t
  | h :: t, S j => h :: list_set t j x
  end.

(** [a[i, :] = row]: [IndexError] past the last row, [ValueError] when the
    row does not have the width of the array. *)
Definition set_row {F : Type} (a : ndarray F) (i : nat) (row : list F) : result (ndarray F) :=
  if i <? fst (shape a)
  then if length row =? snd (shape a)
       then Ok {| shape := shape a; arows := list_set (arows a) i row |}
       else Raise ValueError
  else Raise IndexError.

(** A reduction along axis 0: one value per column of the array. *)
Definition reduce_axis0 {F : Type} (f : list F -> F) (default : F) (a : ndarray F) : list F :=
  map (fun j => f (map (fun row => nth j row default) (arows a))) (seq 0 (snd (shape a))).

(** ** Results *)

(** The value stored for a pair: the rounded p-values, or the text
    ["Error: ..."]. *)
Inductive CausalityResult (P : Type) : Type :=
| PValues (p_values : list P)
| ErrorText (text : string).

Arguments PValues {P} p_values.
Arguments ErrorText {P} text.

(** The value stored for a variable: the three arrays, or the text
    ["Insufficient data for simulation"]. *)
Inductive SimulationResult (F : Type) : Type :=
| Simulated (simulations : ndarray F)
            (forecast_mean forecast_std_dev : option (list F))
| InsufficientSimulationData.

Arguments Simulated {F} simulations forecast_mean forecast_std_dev.
Arguments InsufficientSimulationData {F}.

(** The value stored for a sheet: [{"Error": text}], or the two mappings
    under ["Granger Causality"] and ["Monte Carlo Simulation"]. *)
Inductive SheetResult (P F : Type) : Type :=
| SheetError (text : string)
| SheetAnalysis (causality_results : dict (CausalityResult P))
                (simulation_results : dict (SimulationResult F)).

Arguments SheetError {P F} text.
Arguments SheetAnalysis {P F} causality_results simulation_results.

(** ** The libraries *)

(** What pandas, statsmodels and numpy compute and the program does not
    look into. *)
Class Library : Type := {
  (** how [pd.to_numeric] reads a text; [None] when it is no number *)
  parse_numeric : string -> option number;
  (** Python's [str] of a number, as an f-string renders a numeric label *)
  str_number : number -> string;
  (** Python's [str] of an exception raised by pandas *)
  str_exn : exn -> string;
  (** the p-values of the causality test *)
  pvalue : Type;
  (** [grangercausalitytests(frame, max_lag)]: the description of the
      exception it raises, or the p-value of the [ssr_ftest] at each lag *)
  grangercausalitytests : DataFrame -> nat -> string + (nat -> pvalue);
  (** [round(p, 4)] *)
  round4 : pvalue -> pvalue;
  (** numpy's floats and what the program does with them *)
  np_float : Type;
  float_of_number : number -> np_float;
  float_nan : np_float;
  float_zero : np_float;
  np_mean : list np_float -> np_float;
  np_std : list np_float -> np_float;
  (** the state of numpy's global random generator, and one draw of
      [np.random.normal(mean, std_dev)] *)
  rng : Type;
  normal1 : np_float -> np_float -> rng -> np_float * rng
}.

(** ** The program *)

Section Program.

Context {L : Library}.

(** [pd.to_numeric(..., errors="coerce")] on one value: a text that is no
    number becomes missing. *)
Definition to_numeric_value (c : cell) : cell :=
  match c with
  | NaN => NaN
  | Num n => Num n
  | Str s => match parse_numeric s with
             | Some n => Num n
             | None => NaN
             end
  end.

(** [pd.to_numeric(arg, errors="coerce")]: [TypeError] when [arg] is a
    frame and not a series. *)
Definition to_numeric (arg : selection) : result Series :=
  match arg with
  | ASeries s => Ok (map to_numeric_value s)
  | AFrame _ => Raise TypeError
  end.

(** The body of the loop of [robust_clean_data] over [df_cleaned.columns[1:]]:
    the [try] coerces the column and appends its label, [except Exception]
    moves on to the next one. *)
Definition coerce_column (st : DataFrame * list cell) (col : cell) : DataFrame * list cell :=
  let (df_cleaned, numeric_columns) := st in
  match (arg <- getitem df_cleaned col ;; to_numeric arg) with
  | Ok s => (setitem df_cleaned col s, numeric_columns ++ [col])
  | Raise _ => (df_cleaned, numeric_columns)
  end.

(** Lines 40 to 47 of [robust_clean_data]: the header row becomes the
    labels, empty columns and incomplete rows go, the first column becomes
    the integer valued ["Year"]. *)
Definition time_axis (df : DataFrame) : result DataFrame :=
  let df_cleaned := iloc_from1 df in
  header <- iloc0 df ;;
  df_cleaned <- set_columns header df_cleaned ;;
  let df_cleaned := dropna_columns_all df_cleaned in
  let df_cleaned := dropna_rows df_cleaned in
  first <- index_at (labels df_cleaned) 0 ;;
  let df_cleaned := rename_columns first Year df_cleaned in
  year <- getitem df_cleaned Year ;;
  year <- to_numeric year ;;
  let df_cleaned := setitem df_cleaned Year year in
  df_cleaned <- dropna_subset [Year] df_cleaned ;;
  year <- getitem df_cleaned Year ;;
  year <- astype_int year ;;
  Ok (setitem df_cleaned Year year).

(** Lines 49 to 58: the coercion loop, the selection of the columns it
    listed and the last [dropna]. *)
Definition numeric_part (df_cleaned : DataFrame) : result DataFrame :=
  let (df_cleaned, numeric_columns) :=
    fold_left coerce_column (tl (labels df_cleaned)) (df_cleaned, [Year]) in
  selected <- getitem_list df_cleaned numeric_columns ;;
  Ok (dropna_rows selected).

Definition robust_clean_data (df : DataFrame) : result DataFrame :=
  df_cleaned <- time_axis df ;;
  numeric_part df_cleaned.

Definition validate_data (df : DataFrame) (min_rows : nat) : bool :=
  min_rows <=? index (dropna_rows df).

(** *** Causality *)

(** Python's [str] of a label. *)
Definition py_str (c : cell) : string :=
  match c with
  | Str s => s
  | Num n => str_number n
  | NaN => "nan"%string
  end.

(** The key [f"{var1} causes {var2}"]. *)
Definition causes (var1 var2 : cell) : string :=
  (py_str var1 ++ " causes " ++ py_str var2)%string.

(** The [try] block for one pair: the description of the exception it
    raised, or the list [p_values]. *)
Definition granger_test (data : DataFrame) (max_lag : nat) (var1 var2 : cell)
  : string + list pvalue :=
  match getitem_list data [var1; var2] with
  | Raise e => inl (str_exn e)
  | Ok sub =>
      match grangercausalitytests sub max_lag with
      | inl description => inl description
      | inr test_result => inr (map (fun lag => round4 (test_result lag)) (seq 1 max_lag))
      end
  end.

Definition granger_entry (data : DataFrame) (max_lag : nat) (var1 var2 : cell)
  : CausalityResult pvalue :=
  match granger_test data max_lag var1 var2 with
  | inr p_values => PValues p_values
  | inl description => ErrorText ("Error: " ++ description)%string
  end.

(** The body of the inner loop. *)
Definition granger_step (data : DataFrame) (max_lag : nat) (var1 : cell)
  (results : dict (CausalityResult pvalue)) (var2 : cell) : dict (CausalityResult pvalue) :=
  if py_ne var1 var2
  then dict_set results (causes var1 var2) (granger_entry data max_lag var1 var2)
  else results.

Definition granger_causality_analysis (data : DataFrame) (max_lag : nat)
  : dict (CausalityResult pvalue) :=
  let variables := tl (labels data) in
  fold_left
    (fun results var1 => fold_left (granger_step data max_lag var1) variables results)
    variables [].

(** *** Simulation *)

(** Computations that draw from the random generator and may raise. *)
Definition M (A : Type) : Type := rng -> result (A * rng).

Definition ret {A : Type} (a : A) : M A := fun g => Ok (a, g).

Definition bindM {A B : Type} (m : M A) (k : A -> M B) : M B :=
  fun g => match m g with
           | Ok (a, g') => k a g'
           | Raise e => Raise e
           end.

Definition lift {A : Type} (r : result A) : M A :=
  fun g => match r with
           | Ok a => Ok (a, g)
           | Raise e => Raise e
           end.

Fixpoint foldM {A B : Type} (f : A -> B -> M A) (l : list B) (a : A) : M A :=
  match l with
  | [] => ret a
  | x :: l' => bindM (f a x) (foldM f l')
  end.

(** [np.random.normal(mean, std_dev, size)] *)
Fixpoint normal (mean std_dev : np_float) (size : nat) : M (list np_float) :=
  match size with
  | O => ret []
  | S n => bindM (fun g => Ok (normal1 mean std_dev g)) (fun x =>
           bindM (normal mean std_dev n) (fun xs => ret (x :: xs)))
  end.

(** What [np.mean] and [np.std] see of a value; text raises in them. *)
Definition as_float (c : cell) : result np_float :=
  match c with
  | Num n => Ok (float_of_number n)
  | NaN => Ok float_nan
  | Str _ => Raise TypeError
  end.

Definition simulation : Type :=
  option (ndarray np_float) * option (list np_float) * option (list np_float).

Definition monte_carlo_simulation (data : DataFrame) (variable : cell)
  (num_simulations forecast_period : nat) : M simulation :=
  bindM (lift (getitem data variable)) (fun column =>
  let historical_data := dropna_values column in
  if fst historical_data <? 2 then ret (None, None, None) else
  bindM (lift (mapM as_float (snd historical_data))) (fun historical =>
  let mean := np_mean historical in
  let std_dev := np_std historical in
  let simulations := zeros float_zero num_simulations forecast_period in
  bindM (foldM (fun simulations i =>
                  bindM (normal mean std_dev forecast_period) (fun draws =>
                  lift (set_row simulations i draws)))
               (seq 0 num_simulations) simulations) (fun simulations =>
  let forecast_mean := reduce_axis0 np_mean float_zero simulations in
  let forecast_std_dev := reduce_axis0 np_std float_zero simulations in
  ret (Some simulations, Some forecast_mean, Some forecast_std_dev)))).

(** *** The pipeline *)

(** The body of the loop over [key_variables]. *)
Definition simulate_variable (cleaned_data : DataFrame)
  (num_simulations forecast_period : nat)
  (simulation_results : dict (SimulationResult np_float)) (var : string)
  : M (dict (SimulationResult np_float)) :=
  if existsb (cell_eqb (Str var)) (labels cleaned_data)
  then
    bindM (monte_carlo_simulation cleaned_data (Str var) num_simulations forecast_period)
      (fun r =>
         match r with
         | (Some simulations, forecast_mean, forecast_std_dev) =>
             ret (dict_set simulation_results var
                    (Simulated simulations forecast_mean forecast_std_dev))
         | (None, _, _) =>
             ret (dict_set simulation_results var InsufficientSimulationData)
         end)
  else ret simulation_results.

(** The body of the loop over the sheets, up to the assignment to
    [results[sheet]]. *)
Definition analyze_sheet (key_variables : list string)
  (max_lag num_simulations forecast_period : nat) (df : DataFrame) : M (SheetResult pvalue np_float) :=
  bindM (lift (robust_clean_data df)) (fun cleaned_data =>
  if negb (validate_data cleaned_data 10)
  then ret (SheetError "Insufficient data for analysis")
  else
    let causality_results := granger_causality_analysis cleaned_data max_lag in
    bindM (foldM (simulate_variable cleaned_data num_simulations forecast_period)
                 key_variables [])
      (fun simulation_results =>
         ret (SheetAnalysis causality_results simulation_results))).

Definition analyze_sheets (sheets_data : list (string * DataFrame))
  (key_variables : list string) (max_lag num_simulations forecast_period : nat)
  : M (dict (SheetResult pvalue np_float)) :=
  foldM (fun results entry =>
           bindM (analyze_sheet key_variables max_lag num_simulations forecast_period
                    (snd entry))
             (fun r => ret (dict_set results (fst entry) r)))
        sheets_data [].

End Program.

(** ** Printing the report *)

(** What [print_results] leaves to Python's and numpy's formatting of
    floats. *)
Class Console {L : Library} : Type := {
  (** [p_value < 0.05] *)
  below_0_05 : pvalue -> bool;
  (** [f"{p_value:.4f}"] *)
  format_4f : pvalue -> string;
  (** [str(np.round(a, 2))] for a one dimensional array [a] *)
  str_round2 : list np_float -> string
}.

(** A computation that prints: the texts it has printed, one per call of
    [print], and how it ended. *)
Definition Printer (A : Type) : Type := list string * result A.

Definition print (text : string) : Printer unit := ([text], Ok tt).

Definition done {A : Type} (a : A) : Printer A := ([], Ok a).

Definition bindP {A B : Type} (m : Printer A) (k : A -> Printer B) : Printer B :=
  match snd m with
  | Ok a => (fst m ++ fst (k a), snd (k a))
  | Raise e => (fst m, Raise e)
  end.

Notation "m ;;; k" := (bindP m (fun _ => k)) (at level 62, right associativity).

(** A [for] loop whose body prints. *)
Fixpoint forP {A : Type} (body : A -> Printer unit) (l : list A) : Printer unit :=
  match l with
  | [] => done tt
  | x :: l' => body x ;;; forP body l'
  end.

(** Python's [str] of a natural number. *)
Definition str_nat (n : nat) : string := NilEmpty.string_of_uint (Nat.to_uint n).

(** Python's [s * n]. *)
Fixpoint times (s : string) (n : nat) : string :=
  match n with
  | O => EmptyString
  | S n' => (s ++ times s n')%string
  end.

(** Python's [s.center(width)]: when the margin is odd the extra blank
    goes to the left if the width is odd too, to the right otherwise. *)
Definition center (s : string) (width : nat) : string :=
  let marg := width - String.length s in
  let left := marg / 2 + (if Nat.odd marg && Nat.odd width then 1 else 0) in
  (times " " left ++ s ++ times " " (marg - left))%string.

(** The text ["\n"]. *)
Definition newline : string := String (ascii_of_nat 10) EmptyString.

(** Python's [str] of the shape of a two dimensional array. *)
Definition str_shape (sh : nat * nat) : string :=
  ("(" ++ str_nat (fst sh) ++ ", " ++ str_nat (snd sh) ++ ")")%string.

Section Printing.

Context {L : Library} {C : Console}.

Local Open Scope string_scope.

(** The body of the loop over [enumerate(p_values, 1)]. *)
Definition print_lag (entry : nat * pvalue) : Printer unit :=
  let (lag, p_value) := entry in
  let significance := if below_0_05 p_value then " (significant)" else EmptyString in
  print ("      Lag " ++ str_nat lag ++ ": p = " ++ format_4f p_value ++ significance).

(** The body of the loop over [data["Granger Causality"].items()]. *)
Definition print_cause (entry : string * CausalityResult pvalue) : Printer unit :=
  let (cause, p_values) := entry in
  print ("    " ++ cause) ;;;
  match p_values with
  | ErrorText text => print ("      Error: " ++ text)
  | PValues p_values => forP print_lag (combine (seq 1 (length p_values)) p_values)
  end.

(** [np.round(a, 2)] as the f-string renders it; it raises on [None]. *)
Definition np_round2 (a : option (list np_float)) : Printer string :=
  match a with
  | Some a => done (str_round2 a)
  | None => ([], Raise TypeError)
  end.

(** The body of the loop over [data["Monte Carlo Simulation"].items()]. *)
Definition print_stats (entry : string * SimulationResult np_float) : Printer unit :=
  let (variable, stats) := entry in
  print ("    Variable: " ++ variable) ;;;
  match stats with
  | InsufficientSimulationData => print "      Insufficient data for simulation"
  | Simulated simulations forecast_mean forecast_std_dev =>
      bindP (np_round2 forecast_mean) (fun mean =>
      print ("      Forecast Mean: " ++ mean) ;;;
      bindP (np_round2 forecast_std_dev) (fun std_dev =>
      print ("      Forecast Std Dev: " ++ std_dev) ;;;
      print ("      Simulations Shape: " ++ str_shape (shape simulations))))
  end.

(** The body of the loop over [results.items()].  The value of a sheet
    holds either the key ["Error"] or the two keys ["Granger Causality"]
    and ["Monte Carlo Simulation"]. *)
Definition print_sheet (entry : string * SheetResult pvalue np_float) : Printer unit :=
  let (sheet, data) := entry in
  print (newline ++ "Sheet: " ++ sheet) ;;;
  print (times "-" 60) ;;;
  match data with
  | SheetError text => print ("  Error: " ++ text)
  | SheetAnalysis causality_results simulation_results =>
      print (newline ++ "  Granger Causality Tests:") ;;;
      forP print_cause causality_results ;;;
      print (newline ++ "  Monte Carlo Simulations:") ;;;
      forP print_stats simulation_results
  end.

Definition print_results (results : dict (SheetResult pvalue np_float)) : Printer unit :=
  print (times "=" 60) ;;;
  print (center "ANALYSIS RESULTS" 60) ;;;
  print (times "=" 60) ;;;
  forP print_sheet results.

(** The script, from the sheets read from the file on: the analysis of
    the two key variables with the default parameters, then the printing.
    An exception of the analysis ends the script before anything is
    printed. *)
Definition main (sheets_data : list (string * DataFrame)) (g : rng) : Printer unit :=
  let key_variables := ["Total housing units"; "Occupied units"] in
  match analyze_sheets sheets_data key_variables 3 1000 10 g with
  | Ok (analysis_results, _) => print_results analysis_results
  | Raise e => ([], Raise e)
  end.

End Printing.
(** ** A library to run the program with

    A stand-in for the three libraries, for evaluating the program on
    concrete sheets: a text is a number when it is a decimal integer, the
    causality test fails on a constant first column, floats and p-values
    carry no information, and the state of the random generator is the
    number of draws made so far. *)

Definition digit (a : ascii) : option Z :=
  let n := nat_of_ascii a in
  if (48 <=? n) && (n <=? 57) then Some (Z.of_nat (n - 48)) else None.

Fixpoint digits (s : string) (acc : Z) : option Z :=
  match s with
  | EmptyString => Some acc
  | String a s' =>
      match digit a with
      | Some d => digits s' (10 * acc + d)%Z
      | None => None
      end
  end.

Definition parse_decimal (s : string) : option number :=
  match s with
  | EmptyString => None
  | String "-"%char EmptyString => None
  | String "-"%char s' => option_map (fun z => NInt (- z)%Z) (digits s' 0%Z)
  | _ => option_map NInt (digits s 0%Z)
  end.

Definition string_of_Z (z : Z) : string := NilZero.string_of_int (Z.to_int z).

Definition demo_str_number (n : number) : string :=
  match n with
  | NInt z => string_of_Z z
  | NFloat q => (string_of_Z (Qnum q) ++ "/" ++ string_of_Z (Zpos (Qden q)))%string
  | NInf true => "-inf"%string
  | NInf false => "inf"%string
  end.

Definition demo_str_exn (e : exn) : string :=
  match e with
  | IndexError => "IndexError"%string
  | KeyError => "KeyError"%string
  | TypeError => "TypeError"%string
  | ValueError => "ValueError"%string
  end.

Definition constant (s : Series) : bool :=
  match s with
  | [] => true
  | c :: s' => forallb (cell_eqb c) s'
  end.

Definition demo_grangercausalitytests (sub : DataFrame) (max_lag : nat)
  : string + (nat -> unit) :=
  match cols sub with
  | (_, s) :: _ => if constant s then inl "constant column"%string else inr (fun _ => tt)
  | [] => inl "empty frame"%string
  end.

Definition demo : Library := {|
  parse_numeric := parse_decimal;
  str_number := demo_str_number;
  str_exn := demo_str_exn;
  pvalue := unit;
  grangercausalitytests := demo_grangercausalitytests;
  round4 := fun p => p;
  np_float := unit;
  float_of_number := fun _ => tt;
  float_nan := tt;
  float_zero := tt;
  np_mean := fun _ => tt;
  np_std := fun _ => tt;
  rng := nat;
  normal1 := fun _ _ g => (tt, S g)
|}.

(** A sheet from its rows, the header row first. *)
Definition transpose_rows (width : nat) (rows : list (list cell)) : list Series :=
  map (fun j => map (fun row => nth j row NaN) rows) (seq 0 width).

Definition sheet (width : nat) (rows : list (list cell)) : DataFrame :=
  {| index := length rows;
     cols := map (fun s => (NaN, s)) (transpose_rows width rows) |}.

Definition int (z : Z) : cell := Num (NInt z).


(** The formatting that goes with [demo]: every p-value is printed as
    [0.0000] and is below 0.05, and an array is printed by its length. *)
Definition demo_console : @Console demo := {|
  below_0_05 := fun _ => true;
  format_4f := fun _ => "0.0000"%string;
  str_round2 := fun a => ("[" ++ times "0. " (length a) ++ "]")%string
|}.
(** ** Vocabulary of the statements *)

(** The ordered pairs of variables that Python finds different, in the
    order in which the two loops of [granger_causality_analysis] visit
    them. *)
Definition ordered_pairs (variables : list cell) : list (cell * cell) :=
  flat_map
    (fun var1 => map (pair var1) (filter (fun var2 => py_ne var1 var2) variables))
    variables.

(** The labels [ls] are exact: two of them that Python finds equal are
    one label in one form (not, say, [1] and [1.0]).  On exact labels the
    matching of labels as they are written is the matching of pandas. *)
Definition exact_labels (ls : list cell) : bool :=
  forallb (fun a => forallb (fun b => py_ne a b || cell_eqb a b) ls) ls.

(** A value that is not text. *)
Definition no_text (c : cell) : bool :=
  match c with Str _ => false | _ => true end.

(** The label [key] is on exactly one column of [df]. *)
Definition unique_label (df : DataFrame) (key : cell) : bool :=
  count_occ cell_eq_dec (labels df) key =? 1.

(** The mask [mask] selects no position past the end of [s] and none at
    which [s] has a missing value. *)
Fixpoint below (mask : list bool) (s : Series) : Prop :=
  match mask, s with
  | [], _ => True
  | b :: mask', c :: s' => (b = true -> notna c = true) /\ below mask' s'
  | _ :: _, [] => False
  end.

(** A frame written back as a sheet: its labels on top, as the header row. *)
Definition with_header (df : DataFrame) : DataFrame :=
  {| index := S (index df);
     cols := map (fun c => (fst c, fst c :: snd c)) (cols df) |}.

(** What [robust_clean_data] establishes of its result: the first column is
    ["Year"] and holds integers, no label repeats, every value is a number,
    and every column has one value per row. *)
Record CleanedFrame (df : DataFrame) : Prop := {
  cleaned_year :
    exists year rest, cols df = (Year, year) :: rest /\ forallb is_int year = true;
  cleaned_labels : NoDup (labels df);
  cleaned_numeric : Forall (fun c => forallb is_number (snd c) = true) (cols df);
  cleaned_lengths : Forall (fun c => length (snd c) = index df) (cols df)
}.

(** Every column of [df] whose label is in [keys] is free of text. *)
Definition text_free (df : DataFrame) (keys : list cell) : Prop :=
  forall c, In c (cols df) -> In (fst c) keys -> forallb no_text (snd c) = true.

(** Every column of [df] labelled ["Year"] holds integers. *)
Definition year_ints (df : DataFrame) : Prop :=
  forall c, In c (cols df) -> fst c = Year -> forallb is_int (snd c) = true.

(** The rows of a sheet below its first row, under the labels that row
    holds: the frame after lines 40 and 41. *)
Definition below_header (df : DataFrame) : DataFrame :=
  {| index := pred (index df);
     cols := map (fun c => (hd NaN (snd c), tl (snd c))) (cols df) |}.

(** The frame after lines 42 and 43: the columns that have a value, and
    the rows that are complete in them. *)
Definition headed (df : DataFrame) : DataFrame :=
  dropna_rows (dropna_columns_all (below_header df)).



(** The column [c] ends up labelled ["Year"] when the label [first] is
    renamed to it. *)
Definition claims_year (first : cell) (c : cell * Series) : bool :=
  cell_eqb (fst c) first || cell_eqb (fst c) Year.


(** The frame lines 40 to 47 make of a sheet on which they do not raise:
    the time axis read as integers, the rows without a time gone. *)
Definition with_time_axis {L : Library} (year : Series) (rest : list (cell * Series))
  : result DataFrame :=
  let mask := map notna (map to_numeric_value year) in
  ints <- mapM int_of_value (filter notna (map to_numeric_value year)) ;;
  Ok {| index := count_true mask;
        cols := (Year, ints) :: map (fun c => (fst c, keep mask (snd c))) rest |}.


(** [n] draws of [size] values each, one row after the other. *)
Fixpoint draw_rows {L : Library} (mean std_dev : np_float) (size n : nat)
  : M (list (list np_float)) :=
  match n with
  | O => ret []
  | S n' => bindM (normal mean std_dev size) (fun row =>
            bindM (draw_rows mean std_dev size n') (fun rows => ret (row :: rows)))
  end.

(** The entry of a variable holds the three arrays, in the shapes asked
    for. *)
Definition in_shape {F : Type} (num_simulations forecast_period : nat)
  (stats : SimulationResult F) : Prop :=
  exists simulations forecast_mean forecast_std_dev,
    stats = Simulated simulations (Some forecast_mean) (Some forecast_std_dev) /\
    shape simulations = (num_simulations, forecast_period) /\
    length (arows simulations) = num_simulations /\
    length forecast_mean = forecast_period /\
    length forecast_std_dev = forecast_period.

(** The printed text [line] announces a sheet. *)
Definition announces (line : string) : bool :=
  String.prefix (newline ++ "Sheet: ")%string line.

(** The three texts [print_results] starts with. *)
Definition banner : list string :=
  [times "=" 60; center "ANALYSIS RESULTS" 60; times "=" 60].
(** ** Sample sheets and frames *)

(** A frame with the variables ["x"] and ["x causes x"]: the first is
    constant, the second is not. *)
Definition colliding_frame : DataFrame :=
  {| index := 3;
     cols := [ (Year, [int 2000; int 2001; int 2002]);
               (Str "x", [int 1; int 1; int 1]);
               (Str "x causes x", [int 1; int 2; int 3]) ] |}.

(** The sheet that [colliding_frame] is the cleaning of. *)
Definition colliding_sheet : DataFrame :=
  sheet 3 [ [Str "Date"; Str "x"; Str "x causes x"];
            [int 2000; int 1; int 1];
            [int 2001; int 1; int 2];
            [int 2002; int 1; int 3] ].

(** A frame with the variables ["A"] and ["B"], ["A"] constant. *)
Definition two_variables : DataFrame :=
  {| index := 3;
     cols := [ (Year, [int 2000; int 2001; int 2002]);
               (Str "A", [int 1; int 1; int 1]);
               (Str "B", [int 2; int 4; int 7]) ] |}.

(** A frame with a single variable. *)
Definition one_variable : DataFrame :=
  {| index := 2;
     cols := [ (Year, [int 2000; int 2001]); (Str "A", [int 1; int 2]) ] |}.

(** A sheet with its columns and no row at all. *)
Definition empty_sheet : DataFrame :=
  {| index := 0; cols := [ (Str "Date", []); (Str "A", []) ] |}.


(** A sheet whose column ["A"] holds text only. *)
Definition text_sheet : DataFrame :=
  sheet 2 [ [Str "Date"; Str "A"];
            [int 2000; Str "abc"];
            [int 2001; Str "def"] ].

(** A sheet of three rows, the frame cleaning makes of it, and the frame
    cleaning makes of that frame. *)
Definition small_sheet : DataFrame :=
  sheet 2 [ [Str "Date"; Str "A"];
            [int 2000; int 1];
            [int 2001; int 2];
            [int 2002; int 3] ].

Definition cleaned_small : DataFrame :=
  {| index := 3;
     cols := [ (Year, [int 2000; int 2001; int 2002]); (Str "A", [int 1; int 2; int 3]) ] |}.

Definition recleaned_small : DataFrame :=
  {| index := 2;
     cols := [ (Year, [int 2001; int 2002]); (int 1, [int 2; int 3]) ] |}.

(** A sheet on which the label ["A"] is on two columns, and whose column
    ["B"] holds a text that is no number. *)
Definition duplicate_sheet : DataFrame :=
  sheet 4 [ [Str "Date"; Str "A"; Str "A"; Str "B"];
            [int 2000; int 1; Str "7"; Str "x"];
            [int 2001; int 2; int 8; int 5] ].

(** A sheet of ten rows below its header: the years 2000 to 2009, a
    variable ["A"] and its double ["B"]. *)
Definition valid_sheet : DataFrame :=
  sheet 3 ([Str "Date"; Str "A"; Str "B"]
           :: map (fun i => [int (2000 + Z.of_nat i); int (Z.of_nat i); int (2 * Z.of_nat i)])
                  (seq 0 10)).

(** A frame whose variable ["A"] has a single value. *)
Definition single_value : DataFrame :=
  {| index := 1; cols := [ (Year, [int 2000]); (Str "A", [int 5]) ] |}.

(** The random generator of [demo] before any draw. *)
Definition no_draw : @rng demo := 0.

(** The report of [valid_sheet] and [small_sheet], analysed under the
    names ["housing"] and ["people"] for the variable ["A"], two trials
    and three periods. *)
Definition sample_report : dict (SheetResult unit unit) :=
  [ ("housing"%string,
     SheetAnalysis
       [ ("A causes B"%string, PValues [tt; tt; tt]);
         ("B causes A"%string, PValues [tt; tt; tt]) ]
       [ ("A"%string,
          Simulated {| shape := (2, 3); arows := [ [tt; tt; tt]; [tt; tt; tt] ] |}
                    (Some [tt; tt; tt]) (Some [tt; tt; tt])) ]);
    ("people"%string, SheetError "Insufficient data for analysis") ].


(** The two mappings stored for [valid_sheet], analysed for the variables
    ["A"] and ["C"], two trials and three periods. *)
Definition sample_causality : dict (CausalityResult unit) :=
  [ ("A causes B"%string, PValues [tt; tt; tt]);
    ("B causes A"%string, PValues [tt; tt; tt]) ].

Definition sample_simulations : dict (SimulationResult unit) :=
  [ ("A"%string,
     Simulated {| shape := (2, 3); arows := [ [tt; tt; tt]; [tt; tt; tt] ] |}
               (Some [tt; tt; tt]) (Some [tt; tt; tt])) ].

(** A report with one sheet, whose causality mapping is that of
    [two_variables]: the test of ["A causes B"] fails there. *)
Definition failing_report : dict (SheetResult unit unit) :=
  [ ("housing"%string,
     SheetAnalysis (@granger_causality_analysis demo two_variables 3) []) ].



(** A cleaned frame without rows. *)
Definition cleaned_empty : DataFrame :=
  {| index := 0; cols := [ (Year, []); (Str "A", []) ] |}.
(** ** Properties *)

(** *** Labels and dictionaries *)

Lemma cell_eqb_eq (a b : cell) : cell_eqb a b = true <-> a = b.
Proof.
  unfold cell_eqb. destruct (cell_eq_dec a b); split; congruence.
Qed.

Lemma cell_eqb_refl (a : cell) : cell_eqb a a = true.
Proof. now apply cell_eqb_eq. Qed.

Lemma cell_eqb_neq (a b : cell) : cell_eqb a b = false <-> a <> b.
Proof.
  unfold cell_eqb. destruct (cell_eq_dec a b); split; congruence.
Qed.

Section Dictionaries.

Variable V : Type.

Implicit Types (d : dict V) (k : string) (v : V).

Lemma dict_get_set_eq d k v : dict_get (dict_set d k v) k = Some v.
Proof.
  induction d as [ | [k' v'] d IH ]; simpl.
  - now rewrite String.eqb_refl.
  - destruct (String.eqb k k') eqn:E; simpl; rewrite E; auto.
Qed.

Lemma dict_get_set_neq d k k' v :
  k <> k' -> dict_get (dict_set d k v) k' = dict_get d k'.
Proof.
  intros Hk. induction d as [ | [k0 v0] d IH ]; simpl.
  - destruct (String.eqb k' k) eqn:E; auto.
    apply String.eqb_eq in E. congruence.
  - destruct (String.eqb k k0) eqn:E; simpl.
    + apply String.eqb_eq in E. subst k0.
      destruct (String.eqb k' k) eqn:E'; auto.
      apply String.eqb_eq in E'. congruence.
    + now rewrite IH.
Qed.

Lemma dict_set_fresh d k v : ~ In k (keys d) -> dict_set d k v = d ++ [(k, v)].
Proof.
  induction d as [ | [k' v'] d IH ]; simpl; intros Hk; auto.
  destruct (String.eqb k k') eqn:E.
  - apply String.eqb_eq in E. subst k'. tauto.
  - f_equal. apply IH. tauto.
Qed.

Lemma keys_dict_set_in d k v : In k (keys d) -> keys (dict_set d k v) = keys d.
Proof.
  induction d as [ | [k' v'] d IH ]; simpl; intros Hk; [ tauto | ].
  destruct (String.eqb k k') eqn:E; simpl; auto.
  f_equal. apply IH. destruct Hk as [ Hk | Hk ]; auto.
  subst k'. now rewrite String.eqb_refl in E.
Qed.

Lemma in_keys_dict_set d k k' v : In k' (keys (dict_set d k v)) <-> k' = k \/ In k' (keys d).
Proof.
  induction d as [ | [k0 v0] d IH ]; simpl.
  - intuition congruence.
  - destruct (String.eqb k k0) eqn:E; simpl.
    + apply String.eqb_eq in E. subst k0. intuition congruence.
    + rewrite IH. intuition congruence.
Qed.

(** Setting the entries of [l] one after the other. *)
Definition set_all (l : list (string * V)) (d : dict V) : dict V :=
  fold_left (fun d kv => dict_set d (fst kv) (snd kv)) l d.

Lemma set_all_fresh l : forall d,
  NoDup (keys d ++ map fst l) -> set_all l d = d ++ l.
Proof.
  induction l as [ | [k v] l IH ]; simpl; intros d Hd.
  - now rewrite app_nil_r.
  - unfold set_all in *. simpl.
    assert (Hk : ~ In k (keys d)).
    { apply NoDup_remove_2 in Hd. intros Hin. apply Hd. apply in_or_app. now left. }
    rewrite (dict_set_fresh d k v Hk).
    rewrite IH.
    + now rewrite <- app_assoc.
    + unfold keys in *. rewrite map_app. simpl. rewrite <- app_assoc. exact Hd.
Qed.

Lemma in_keys_set_all l : forall d k,
  In k (keys (set_all l d)) <-> In k (keys d) \/ In k (map fst l).
Proof.
  induction l as [ | [k0 v0] l IH ]; simpl; intros d k.
  - tauto.
  - unfold set_all in *. simpl. rewrite IH, in_keys_dict_set. intuition congruence.
Qed.

(** The value under [k] is the one set last. *)
Lemma dict_get_set_all l : forall d k,
  dict_get (set_all l d) k =
  match dict_get (rev l) k with
  | Some v => Some v
  | None => dict_get d k
  end.
Proof.
  assert (Happ : forall (l1 l2 : dict V) k,
             dict_get (l1 ++ l2) k =
             match dict_get l1 k with Some v => Some v | None => dict_get l2 k end).
  { induction l1 as [ | [k1 v1] l1 IH ]; simpl; intros l2 k; auto.
    destruct (String.eqb k k1); auto. }
  induction l as [ | [k0 v0] l IH ]; simpl; intros d k; auto.
  unfold set_all in *. simpl. rewrite IH, Happ. simpl.
  destruct (dict_get (rev l) k); auto.
  destruct (String.eqb k k0) eqn:E.
  - apply String.eqb_eq in E. subst k0. apply dict_get_set_eq.
  - apply dict_get_set_neq. intros ->. now rewrite String.eqb_refl in E.
Qed.

Lemma dict_get_unique (l : dict V) k v :
  In (k, v) l -> (forall v', In (k, v') l -> v' = v) -> dict_get l k = Some v.
Proof.
  induction l as [ | [k0 v0] l IH ]; simpl; intros Hin Huniq; [ tauto | ].
  destruct (String.eqb k k0) eqn:E.
  - apply String.eqb_eq in E. subst k0. f_equal. apply Huniq. now left.
  - apply IH.
    + destruct Hin as [ Hin | Hin ]; auto.
      inversion Hin; subst. now rewrite String.eqb_refl in E.
    + intros v' Hv'. apply Huniq. now right.
Qed.

End Dictionaries.

Arguments set_all {V} l d.

(** *** The causality analysis *)

Section Causality.

Context {L : Library}.

Variable data : DataFrame.
Variable max_lag : nat.

(** The entry the analysis writes for a pair. *)
Definition entry_of (p : cell * cell) : string * CausalityResult pvalue :=
  (causes (fst p) (snd p), granger_entry data max_lag (fst p) (snd p)).

Lemma inner_loop_sets var1 variables : forall results,
  fold_left (granger_step data max_lag var1) variables results =
  set_all
    (map entry_of (map (pair var1) (filter (fun var2 => py_ne var1 var2) variables)))
    results.
Proof.
  induction variables as [ | var2 variables IH ]; intros results; simpl; auto.
  rewrite IH. unfold granger_step at 1.
  destruct (py_ne var1 var2); reflexivity.
Qed.

Lemma outer_loop_sets variables outer : forall results,
  fold_left
    (fun results var1 => fold_left (granger_step data max_lag var1) variables results)
    outer results =
  set_all
    (map entry_of
       (flat_map
          (fun var1 => map (pair var1) (filter (fun var2 => py_ne var1 var2) variables))
          outer))
    results.
Proof.
  induction outer as [ | var1 outer IH ]; intros results; simpl; auto.
  rewrite IH, inner_loop_sets, map_app.
  unfold set_all. now rewrite fold_left_app.
Qed.

(** The analysis sets one entry per ordered pair, in the order of the pairs. *)
Lemma granger_sets :
  granger_causality_analysis data max_lag =
  set_all (map entry_of (ordered_pairs (tl (labels data)))) [].
Proof.
  unfold granger_causality_analysis, ordered_pairs. apply outer_loop_sets.
Qed.

Lemma in_ordered_pairs variables a b :
  In (a, b) (ordered_pairs variables) <->
  In a variables /\ In b variables /\ py_ne a b = true.
Proof.
  unfold ordered_pairs. rewrite in_flat_map. split.
  - intros (var1 & H1 & H2). apply in_map_iff in H2.
    destruct H2 as (var2 & Heq & H2). inversion Heq; subst.
    apply filter_In in H2. destruct H2 as [ H2 Hne ]. auto.
  - intros (Ha & Hb & Hne). exists a. split; auto.
    apply in_map. apply filter_In. split; auto.
Qed.

Lemma NoDup_pairs inner outer :
  NoDup inner -> NoDup outer ->
  NoDup (flat_map
           (fun var1 => map (pair var1) (filter (fun var2 => py_ne var1 var2) inner))
           outer).
Proof.
  intros Hinner.
  induction outer as [ | var1 outer IH ]; simpl; intros Houter; [ constructor | ].
  inversion Houter as [ | ? ? Hnotin Houter' ]; subst.
  apply NoDup_app.
  - apply NoDup_map_NoDup_ForallPairs.
    + intros x y _ _ Hxy. now inversion Hxy.
    + now apply NoDup_filter.
  - now apply IH.
  - intros [a b] H1 H2. apply in_map_iff in H1. destruct H1 as (x & Hx & _).
    inversion Hx; subst. apply in_flat_map in H2. destruct H2 as (w & Hw & H2).
    apply in_map_iff in H2. destruct H2 as (y & Hy & _). inversion Hy; subst.
    contradiction.
Qed.

Lemma NoDup_ordered_pairs variables : NoDup variables -> NoDup (ordered_pairs variables).
Proof.
  intros Hnd. now apply NoDup_pairs.
Qed.

(** A label that is not missing is equal to itself for Python. *)
Lemma py_ne_refl (a : cell) : notna a = true -> py_ne a a = false.
Proof.
  destruct a as [ | [ z | q | s ] | s ]; simpl; try discriminate; intros _.
  - now rewrite Z.eqb_refl.
  - assert (H : Qeq_bool q q = true) by (apply Qeq_bool_iff; reflexivity).
    now rewrite H.
  - now destruct s.
  - now rewrite String.eqb_refl.
Qed.

Lemma exact_labels_spec (ls : list cell) (a b : cell) :
  exact_labels ls = true -> In a ls -> In b ls -> py_ne a b = false -> a = b.
Proof.
  unfold exact_labels. intros H Ha Hb Hne.
  rewrite forallb_forall in H. specialize (H a Ha).
  rewrite forallb_forall in H. specialize (H b Hb).
  rewrite Hne in H. now apply cell_eqb_eq.
Qed.

Lemma exact_labels_incl (ls ls' : list cell) :
  incl ls' ls -> exact_labels ls = true -> exact_labels ls' = true.
Proof.
  unfold exact_labels. intros Hincl H.
  apply forallb_forall. intros a Ha. apply forallb_forall. intros b Hb.
  rewrite forallb_forall in H. specialize (H a (Hincl a Ha)).
  rewrite forallb_forall in H. exact (H b (Hincl b Hb)).
Qed.

(** Among exact labels of which none is missing, Python finds a label
    different from every label but itself. *)
Lemma length_others variables var1 :
  NoDup variables -> exact_labels variables = true -> forallb notna variables = true ->
  In var1 variables ->
  length (filter (fun var2 => py_ne var1 var2) variables) = length variables - 1.
Proof.
  intros Hnd Hexact Hna Hin.
  assert (Hsame : forall v, In v variables ->
                            py_ne var1 v = negb (cell_eqb var1 v)).
  { intros v Hv. destruct (py_ne var1 v) eqn:E.
    - destruct (cell_eqb var1 v) eqn:E'; auto.
      apply cell_eqb_eq in E'. subst v.
      rewrite forallb_forall in Hna. rewrite py_ne_refl in E by auto. discriminate.
    - rewrite (exact_labels_spec variables var1 v Hexact Hin Hv E).
      now rewrite cell_eqb_refl. }
  assert (E : filter (fun var2 => py_ne var1 var2) variables =
              filter (fun var2 => negb (cell_eqb var1 var2)) variables)
    by (apply filter_ext_in; exact Hsame).
  rewrite E. clear E Hsame Hexact Hna.
  induction variables as [ | a l IH ]; simpl; [ tauto | ].
  inversion Hnd as [ | ? ? Hnotin Hnd' ]; subst.
  destruct (cell_eq_dec var1 a) as [ -> | Hne ].
  - rewrite cell_eqb_refl. simpl.
    assert (Hall : filter (fun var2 => negb (cell_eqb a var2)) l = l).
    { clear - Hnotin. induction l as [ | b l IH ]; simpl; auto.
      destruct (cell_eqb a b) eqn:E; simpl.
      - apply cell_eqb_eq in E. subst b. simpl in Hnotin. tauto.
      - f_equal. apply IH. simpl in Hnotin. tauto. }
    rewrite Hall. lia.
  - apply cell_eqb_neq in Hne. rewrite Hne. simpl.
    destruct Hin as [ Hin | Hin ]; [ apply cell_eqb_neq in Hne; congruence | ].
    rewrite IH by assumption.
    destruct l; simpl in *; [ tauto | lia ].
Qed.

Lemma length_ordered_pairs variables :
  NoDup variables -> exact_labels variables = true -> forallb notna variables = true ->
  length (ordered_pairs variables) = length variables * (length variables - 1).
Proof.
  intros Hnd Hexact Hna. unfold ordered_pairs.
  apply flat_map_constant_length. intros var1 Hin.
  rewrite length_map. now apply length_others.
Qed.

(** The pair [p] has its key to itself among the pairs of the frame. *)
Definition own_key (p : cell * cell) : Prop :=
  forall q, In q (ordered_pairs (tl (labels data))) ->
            causes (fst q) (snd q) = causes (fst p) (snd p) -> q = p.

(** A pair that has its key to itself finds its own entry under it. *)
Lemma granger_get_own p :
  In p (ordered_pairs (tl (labels data))) -> own_key p ->
  dict_get (granger_causality_analysis data max_lag) (causes (fst p) (snd p)) =
  Some (granger_entry data max_lag (fst p) (snd p)).
Proof.
  intros Hin Hown. rewrite granger_sets, dict_get_set_all.
  rewrite (dict_get_unique _ (rev (map entry_of (ordered_pairs (tl (labels data)))))
             (causes (fst p) (snd p)) (granger_entry data max_lag (fst p) (snd p))); auto.
  - apply in_rev. rewrite rev_involutive. apply in_map_iff. now exists p.
  - intros v' Hv'. apply in_rev in Hv'. apply in_map_iff in Hv'.
    destruct Hv' as (q & Hq & Hqin). unfold entry_of in Hq. inversion Hq as [ [Hk Hv] ].
    apply Hown in Hk; auto. now subst q.
Qed.

Lemma granger_has_key p :
  In p (ordered_pairs (tl (labels data))) ->
  In (causes (fst p) (snd p)) (keys (granger_causality_analysis data max_lag)).
Proof.
  intros Hin. rewrite granger_sets. apply in_keys_set_all. right.
  rewrite map_map. apply in_map_iff. now exists p.
Qed.

End Causality.

Section CausalityClaims.

Context {L : Library}.


(** C3 (amended).  When the variables of the frame (the labels after the
    first) are distinct and none of them is missing, the labels of the
    frame are exact, and no two ordered pairs of variables are rendered as
    the same key ["var1 causes var2"], the analysis returns exactly one
    entry per ordered pair of distinct variables, in the order of the
    pairs, under that key: V * (V - 1) entries for V variables. *)
Theorem granger_one_entry_per_pair (data : DataFrame) (max_lag : nat) :
  NoDup (tl (labels data)) ->
  exact_labels (labels data) = true ->
  forallb notna (tl (labels data)) = true ->
  (forall p q,
      In p (ordered_pairs (tl (labels data))) ->
      In q (ordered_pairs (tl (labels data))) ->
      causes (fst p) (snd p) = causes (fst q) (snd q) -> p = q) ->
  granger_causality_analysis data max_lag =
    map (fun p => (causes (fst p) (snd p), granger_entry data max_lag (fst p) (snd p)))
        (ordered_pairs (tl (labels data)))
  /\ length (granger_causality_analysis data max_lag) =
     length (tl (labels data)) * (length (tl (labels data)) - 1).
Proof.
  intros Hnd Hexact Hna Hinj.
  assert (Heq : granger_causality_analysis data max_lag =
                map (entry_of data max_lag) (ordered_pairs (tl (labels data)))).
  { rewrite granger_sets. rewrite set_all_fresh; auto. simpl.
    rewrite map_map. simpl.
    apply NoDup_map_NoDup_ForallPairs.
    - intros p q Hp Hq. now apply Hinj.
    - now apply NoDup_ordered_pairs. }
  split.
  - exact Heq.
  - rewrite Heq, length_map. apply length_ordered_pairs; auto.
    apply (exact_labels_incl (labels data)); auto.
    destruct (labels data); [ apply incl_refl | apply incl_tl, incl_refl ].
Qed.

(** C4 (amended).  When the causality primitive raises for the pair
    ([var1], [var2]) and no other ordered pair is rendered as the same key,
    the entry of the pair is the text ["Error: "] followed by the description
    of the exception.  Every ordered pair has its key in the result, and
    every pair that has its key to itself finds under it the outcome of its
    own test. *)
Theorem granger_failure_is_recorded (data : DataFrame) (max_lag : nat)
  (var1 var2 : cell) (sub : DataFrame) (description : string) :
  In (var1, var2) (ordered_pairs (tl (labels data))) ->
  getitem_list data [var1; var2] = Ok sub ->
  grangercausalitytests sub max_lag = inl description ->
  own_key data (var1, var2) ->
  dict_get (granger_causality_analysis data max_lag) (causes var1 var2) =
    Some (ErrorText ("Error: " ++ description)%string)
  /\ (forall p, In p (ordered_pairs (tl (labels data))) ->
                In (causes (fst p) (snd p)) (keys (granger_causality_analysis data max_lag)))
  /\ (forall p, In p (ordered_pairs (tl (labels data))) -> own_key data p ->
                dict_get (granger_causality_analysis data max_lag) (causes (fst p) (snd p)) =
                Some (granger_entry data max_lag (fst p) (snd p))).
Proof.
  intros Hin Hsub Hraise Hown. repeat split.
  - pose proof (granger_get_own data max_lag (var1, var2) Hin Hown) as Hget.
    simpl in Hget. rewrite Hget.
    unfold granger_entry, granger_test. now rewrite Hsub, Hraise.
  - intros p Hp. now apply granger_has_key.
  - intros p Hp Hp'. now apply granger_get_own.
Qed.

End CausalityClaims.

(** *** Masks and the rows they keep *)

Lemma below_map2_self (s : Series) : forall mask,
  below (map2 andb (map notna s) mask) s.
Proof.
  induction s as [ | c s IH ]; intros [ | b mask ]; simpl; auto.
  split; auto. intros H. now apply andb_true_iff in H.
Qed.

Lemma below_map2_other (flags : list bool) : forall mask s,
  below mask s -> below (map2 andb flags mask) s.
Proof.
  induction flags as [ | f flags IH ]; intros [ | b mask ] [ | c s ]; simpl; auto.
  intros [ Hb Hbelow ]. split; auto.
  intros H. apply andb_true_iff in H. tauto.
Qed.

Lemma below_notna_rows (n : nat) (ss : list Series) (s : Series) :
  In s ss -> below (notna_rows n ss) s.
Proof.
  induction ss as [ | s0 ss IH ]; simpl; intros Hin; [ tauto | ].
  destruct Hin as [ -> | Hin ].
  - apply below_map2_self.
  - apply below_map2_other. now apply IH.
Qed.

Lemma length_map2_le {A B C : Type} (f : A -> B -> C) : forall l l',
  length (map2 f l l') <= length l'.
Proof.
  induction l as [ | x l IH ]; intros [ | y l' ]; simpl; try lia.
  specialize (IH l'). lia.
Qed.

Lemma length_notna_rows_le (n : nat) (ss : list Series) :
  length (notna_rows n ss) <= n.
Proof.
  induction ss as [ | s ss IH ]; simpl.
  - now rewrite repeat_length.
  - etransitivity; [ apply length_map2_le | exact IH ].
Qed.

Lemma notna_keep_below (mask : list bool) : forall s,
  below mask s -> forallb notna (keep mask s) = true.
Proof.
  induction mask as [ | b mask IH ]; intros [ | c s ]; simpl; auto.
  intros [ Hb Hbelow ]. destruct b; simpl; auto.
  rewrite Hb by reflexivity. now apply IH.
Qed.

Lemma length_keep_below (mask : list bool) : forall s,
  below mask s -> length (keep mask s) = count_true mask.
Proof.
  unfold count_true.
  induction mask as [ | b mask IH ]; intros [ | c s ]; simpl; auto; try tauto.
  intros [ _ Hbelow ]. destruct b; simpl; auto.
Qed.

Lemma forallb_keep {A : Type} (P : A -> bool) (mask : list bool) : forall l,
  forallb P l = true -> forallb P (keep mask l) = true.
Proof.
  induction mask as [ | b mask IH ]; intros [ | x l ]; simpl; auto.
  intros H. apply andb_true_iff in H. destruct H as [ Hx Hl ].
  destruct b; simpl; auto. rewrite Hx. now apply IH.
Qed.

Lemma forallb_filter_keeps {A : Type} (P f : A -> bool) (l : list A) :
  forallb P l = true -> forallb P (filter f l) = true.
Proof.
  induction l as [ | x l IH ]; simpl; auto.
  intros H. apply andb_true_iff in H. destruct H as [ Hx Hl ].
  destruct (f x); simpl; auto. now rewrite Hx, IH.
Qed.

Lemma count_true_repeat (n : nat) : count_true (repeat true n) = n.
Proof.
  unfold count_true. induction n as [ | n IH ]; simpl; auto.
Qed.

Lemma keep_repeat_true {A : Type} (l : list A) :
  keep (repeat true (length l)) l = l.
Proof.
  induction l as [ | x l IH ]; simpl; auto. now rewrite IH.
Qed.

Lemma map2_notna_true (s : Series) : forall n,
  length s = n -> forallb notna s = true ->
  map2 andb (map notna s) (repeat true n) = repeat true n.
Proof.
  induction s as [ | c s IH ]; intros [ | n ]; simpl; try discriminate; auto.
  intros Hlen H. apply andb_true_iff in H. destruct H as [ -> H ].
  simpl. f_equal. apply IH; auto.
Qed.

(** No row is dropped when every series is complete. *)
Lemma notna_rows_full (n : nat) (ss : list Series) :
  Forall (fun s => length s = n /\ forallb notna s = true) ss ->
  notna_rows n ss = repeat true n.
Proof.
  induction 1 as [ | s ss [ Hlen Hs ] _ IH ]; simpl; auto.
  rewrite IH. now apply map2_notna_true.
Qed.

Lemma take_rows_full (df : DataFrame) :
  Forall (fun c => length (snd c) = index df) (cols df) ->
  take_rows (repeat true (index df)) df = df.
Proof.
  intros Hlen. unfold take_rows. rewrite count_true_repeat.
  destruct df as [ n cs ]. simpl in *. f_equal.
  induction Hlen as [ | [l s] cs Hs _ IH ]; simpl; auto.
  simpl in Hs. rewrite IH. subst n. now rewrite keep_repeat_true.
Qed.

(** *** Columns and their labels *)

Lemma bind_Ok {A B : Type} (m : result A) (k : A -> result B) (b : B) :
  bind m k = Ok b -> exists a, m = Ok a /\ k a = Ok b.
Proof.
  destruct m as [ a | e ]; simpl; intros H; [ now exists a | discriminate ].
Qed.

Lemma frame_eta (df : DataFrame) : {| index := index df; cols := cols df |} = df.
Proof. now destruct df. Qed.

Lemma has_label_eq (key : cell) (c : cell * Series) : has_label key c = true <-> fst c = key.
Proof. unfold has_label. apply cell_eqb_eq. Qed.

Lemma length_filter_has_label (cs : list (cell * Series)) (key : cell) :
  length (filter (has_label key) cs) = count_occ cell_eq_dec (map fst cs) key.
Proof.
  induction cs as [ | c cs IH ]; simpl; auto.
  unfold has_label at 1, cell_eqb.
  destruct (cell_eq_dec (fst c) key); simpl; now rewrite IH.
Qed.

Lemma unique_label_filter (df : DataFrame) (key : cell) :
  unique_label df key = true <-> exists c, filter (has_label key) (cols df) = [c].
Proof.
  unfold unique_label, labels. rewrite <- length_filter_has_label, Nat.eqb_eq.
  destruct (filter (has_label key) (cols df)) as [ | c [ | c' l ] ]; simpl; split;
    try discriminate; try (intros [ c0 H ]; discriminate); auto.
  intros _. now exists c.
Qed.

Lemma unique_label_present (df : DataFrame) (key : cell) :
  unique_label df key = true -> existsb (has_label key) (cols df) = true.
Proof.
  intros H. apply unique_label_filter in H. destruct H as [ c Hc ].
  apply existsb_exists. exists c.
  assert (Hin : In c (filter (has_label key) (cols df))) by (rewrite Hc; now left).
  apply filter_In in Hin. tauto.
Qed.

Lemma unique_label_labels (df df' : DataFrame) (key : cell) :
  labels df' = labels df -> unique_label df' key = unique_label df key.
Proof. unfold unique_label. now intros ->. Qed.

(** A column that is alone under its label is what [df[key]] returns. *)
Lemma getitem_unique (df : DataFrame) (key : cell) :
  unique_label df key = true ->
  exists s, getitem df key = Ok (ASeries s) /\ filter (has_label key) (cols df) = [(key, s)].
Proof.
  intros H. apply unique_label_filter in H. destruct H as [ [l s] Hc ].
  exists s. unfold getitem. rewrite Hc. split; auto.
  assert (Hin : In (l, s) (filter (has_label key) (cols df))) by (rewrite Hc; now left).
  apply filter_In in Hin. destruct Hin as [ _ Hl ]. apply has_label_eq in Hl.
  simpl in Hl. now subst l.
Qed.

Lemma getitem_series (df : DataFrame) (key : cell) (s : Series) :
  getitem df key = Ok (ASeries s) ->
  unique_label df key = true /\ filter (has_label key) (cols df) = [(key, s)].
Proof.
  intros H. unfold getitem in H.
  destruct (filter (has_label key) (cols df)) as [ | c [ | c' l ] ] eqn:E; try discriminate.
  inversion H; subst.
  assert (Hu : unique_label df key = true) by (apply unique_label_filter; now exists c).
  split; auto.
  destruct (getitem_unique df key Hu) as (s' & _ & Hs').
  rewrite E in Hs'. inversion Hs'; subst. reflexivity.
Qed.

Lemma labels_take_rows (mask : list bool) (df : DataFrame) :
  labels (take_rows mask df) = labels df.
Proof. unfold labels, take_rows. simpl. now rewrite map_map. Qed.

Lemma labels_dropna_rows (df : DataFrame) : labels (dropna_rows df) = labels df.
Proof. apply labels_take_rows. Qed.

Lemma cols_setitem (df : DataFrame) (key : cell) (s : Series) :
  existsb (has_label key) (cols df) = true ->
  setitem df key s =
  {| index := index df;
     cols := map (fun c => if has_label key c then (fst c, s) else c) (cols df) |}.
Proof. unfold setitem. now intros ->. Qed.

Lemma labels_setitem (df : DataFrame) (key : cell) (s : Series) :
  existsb (has_label key) (cols df) = true ->
  labels (setitem df key s) = labels df.
Proof.
  intros H. rewrite cols_setitem by assumption. unfold labels. simpl.
  rewrite map_map. apply map_ext. intros c. now destruct (has_label key c).
Qed.

Lemma index_setitem (df : DataFrame) (key : cell) (s : Series) :
  index (setitem df key s) = index df.
Proof. unfold setitem. now destruct (existsb (has_label key) (cols df)). Qed.

(** Writing back the values a column already has changes nothing. *)
Lemma setitem_same (df : DataFrame) (key : cell) (s : Series) :
  filter (has_label key) (cols df) = [(key, s)] ->
  setitem df key s = df.
Proof.
  intros H.
  assert (Hex : existsb (has_label key) (cols df) = true).
  { apply existsb_exists. exists (key, s). apply filter_In. rewrite H. now left. }
  rewrite cols_setitem by assumption. destruct df as [ n cs ]. simpl in *. f_equal.
  rewrite <- (map_id cs) at 2. apply map_ext_in. intros c Hc.
  destruct (has_label key c) eqn:E; auto.
  assert (Hin : In c (filter (has_label key) cs)) by (apply filter_In; auto).
  rewrite H in Hin. destruct Hin as [ <- | [] ]. reflexivity.
Qed.

(** [astype(int)] returns integers, and returns integers unchanged. *)
Lemma mapM_int_of_value (s y : Series) :
  mapM int_of_value s = Ok y -> forallb is_int y = true.
Proof.
  revert y. induction s as [ | c s IH ]; simpl; intros y H.
  - now inversion H.
  - apply bind_Ok in H. destruct H as (c' & Hc & H).
    apply bind_Ok in H. destruct H as (y' & Hy & H). inversion H; subst.
    simpl. rewrite (IH _ Hy), andb_true_r.
    destruct c as [ | [ z | q | b ] | t ]; simpl in Hc; inversion Hc; reflexivity.
Qed.

Lemma mapM_int_of_value_int (s : Series) :
  forallb is_int s = true -> mapM int_of_value s = Ok s.
Proof.
  induction s as [ | c s IH ]; simpl; auto.
  intros H. apply andb_true_iff in H. destruct H as [ Hc Hs ].
  destruct c as [ | [ z | q | b ] | t ]; try discriminate.
  simpl. now rewrite IH.
Qed.

(** *** Cleaning *)

Section Cleaning.

Context {L : Library}.

Lemma no_text_to_numeric_value (c : cell) : no_text (to_numeric_value c) = true.
Proof.
  destruct c as [ | n | t ]; simpl; auto. now destruct (parse_numeric t).
Qed.

Lemma no_text_to_numeric (s : Series) : forallb no_text (map to_numeric_value s) = true.
Proof.
  induction s as [ | c s IH ]; simpl; auto.
  now rewrite no_text_to_numeric_value.
Qed.

Lemma to_numeric_numbers (s : Series) :
  forallb is_number s = true -> map to_numeric_value s = s.
Proof.
  induction s as [ | c s IH ]; simpl; auto.
  intros H. apply andb_true_iff in H. destruct H as [ Hc Hs ].
  rewrite IH by assumption. destruct c; try discriminate. reflexivity.
Qed.

Lemma is_int_is_number (s : Series) :
  forallb is_int s = true -> forallb is_number s = true.
Proof.
  induction s as [ | c s IH ]; simpl; auto.
  intros H. apply andb_true_iff in H. destruct H as [ Hc Hs ].
  rewrite IH by assumption. destruct c as [ | [ z | q | b ] | t ]; try discriminate.
  reflexivity.
Qed.

Lemma is_number_no_text_notna (s : Series) :
  forallb no_text s = true -> forallb notna s = true -> forallb is_number s = true.
Proof.
  induction s as [ | c s IH ]; simpl; auto.
  intros H1 H2. apply andb_true_iff in H1, H2.
  destruct H1 as [ Hc1 Hs1 ], H2 as [ Hc2 Hs2 ].
  rewrite IH by assumption. destruct c; try discriminate. reflexivity.
Qed.

(** The two outcomes of the [try] on one column. *)
Lemma coerce_column_unique (df : DataFrame) (nc : list cell) (col : cell) :
  unique_label df col = true ->
  exists s, filter (has_label col) (cols df) = [(col, s)] /\
            coerce_column (df, nc) col =
            (setitem df col (map to_numeric_value s), nc ++ [col]).
Proof.
  intros H. destruct (getitem_unique df col H) as (s & Hget & Hs).
  exists s. split; auto. unfold coerce_column. now rewrite Hget.
Qed.

Lemma coerce_column_repeated (df : DataFrame) (nc : list cell) (col : cell) :
  unique_label df col = false -> coerce_column (df, nc) col = (df, nc).
Proof.
  intros H. unfold coerce_column, getitem.
  destruct (filter (has_label col) (cols df)) as [ | c [ | c' l ] ] eqn:E; simpl; auto.
  assert (Hu : unique_label df col = true) by (apply unique_label_filter; now exists c).
  congruence.
Qed.

(** The loop keeps the labels and lists the labels that are alone on a
    column. *)
Lemma coerce_loop_labels (ls : list cell) : forall df nc,
  labels (fst (fold_left coerce_column ls (df, nc))) = labels df /\
  index (fst (fold_left coerce_column ls (df, nc))) = index df /\
  snd (fold_left coerce_column ls (df, nc)) = nc ++ filter (unique_label df) ls.
Proof.
  induction ls as [ | col ls IH ]; intros df nc; cbn [fold_left filter].
  - simpl. now rewrite app_nil_r.
  - destruct (unique_label df col) eqn:E.
    + destruct (coerce_column_unique df nc col E) as (s & Hs & ->).
      destruct (IH (setitem df col (map to_numeric_value s)) (nc ++ [col]))
        as (Hl & Hi & Hn).
      assert (Hlab : labels (setitem df col (map to_numeric_value s)) = labels df)
        by (apply labels_setitem; now apply unique_label_present).
      rewrite Hl, Hi, Hn, Hlab, index_setitem. repeat split; auto.
      rewrite <- app_assoc. simpl. do 2 f_equal.
      apply filter_ext. intros k. now apply unique_label_labels.
    + rewrite (coerce_column_repeated df nc col E). apply IH.
Qed.

Lemma coerce_loop_invariant (Q : DataFrame -> list cell -> Prop) :
  (forall df nc col,
      Q df nc ->
      Q (fst (coerce_column (df, nc) col)) (snd (coerce_column (df, nc) col))) ->
  forall ls df nc,
    Q df nc ->
    Q (fst (fold_left coerce_column ls (df, nc)))
      (snd (fold_left coerce_column ls (df, nc))).
Proof.
  intros Hstep. induction ls as [ | col ls IH ]; intros df nc HQ; cbn [fold_left]; auto.
  specialize (Hstep df nc col HQ).
  destruct (coerce_column (df, nc) col) as [ df1 nc1 ]. now apply IH.
Qed.

Lemma coerce_column_text_free (df : DataFrame) (nc : list cell) (col : cell) :
  text_free df nc ->
  text_free (fst (coerce_column (df, nc) col)) (snd (coerce_column (df, nc) col)).
Proof.
  intros HQ. destruct (unique_label df col) eqn:E.
  - destruct (coerce_column_unique df nc col E) as (s & Hs & ->). simpl.
    rewrite cols_setitem by now apply unique_label_present.
    intros c Hc Hin. simpl in Hc. apply in_map_iff in Hc.
    destruct Hc as (c0 & <- & Hc0). destruct (has_label col c0) eqn:El; simpl.
    + apply no_text_to_numeric.
    + apply HQ; auto. simpl in Hin. apply in_app_or in Hin.
      destruct Hin as [ Hin | [ Hin | [] ] ]; auto.
      symmetry in Hin. apply has_label_eq in Hin. congruence.
  - now rewrite (coerce_column_repeated df nc col E).
Qed.

Lemma coerce_column_year_ints (df : DataFrame) (nc : list cell) (col : cell) :
  year_ints df -> year_ints (fst (coerce_column (df, nc) col)).
Proof.
  intros HQ. destruct (unique_label df col) eqn:E.
  - destruct (coerce_column_unique df nc col E) as (s & Hs & ->). simpl.
    rewrite cols_setitem by now apply unique_label_present.
    intros c Hc Hy. simpl in Hc. apply in_map_iff in Hc.
    destruct Hc as (c0 & <- & Hc0). destruct (has_label col c0) eqn:El; simpl in *.
    + apply has_label_eq in El.
      assert (Hin : In (col, s) (filter (has_label col) (cols df))) by (rewrite Hs; now left).
      apply filter_In in Hin. destruct Hin as [ Hin _ ].
      assert (Hs' : forallb is_int s = true) by (apply (HQ (col, s)); simpl; congruence).
      rewrite to_numeric_numbers; auto. now apply is_int_is_number.
    + now apply HQ.
  - now rewrite (coerce_column_repeated df nc col E).
Qed.

Lemma labels_rename (old new : cell) (df : DataFrame) :
  labels (rename_columns old new df) =
  map (fun l => if cell_eqb l old then new else l) (labels df).
Proof. unfold labels, rename_columns. simpl. now rewrite !map_map. Qed.

Lemma dropna_subset_Ok (ks : list cell) (df df' : DataFrame) :
  dropna_subset ks df = Ok df' -> exists mask, df' = take_rows mask df.
Proof.
  unfold dropna_subset.
  destruct (forallb (fun key => existsb (has_label key) (cols df)) ks); intros H;
    inversion H. eauto.
Qed.

(** What lines 40 to 47 establish: the first column is labelled ["Year"],
    no other column is, and it holds integers. *)
Lemma time_axis_year (df pre : DataFrame) :
  time_axis df = Ok pre ->
  (exists year rest, cols pre = (Year, year) :: rest) /\
  unique_label pre Year = true /\
  year_ints pre.
Proof.
  unfold time_axis. intros H.
  apply bind_Ok in H. destruct H as (header & Hh & H).
  apply bind_Ok in H. destruct H as (d1 & Hd1 & H).
  apply bind_Ok in H. destruct H as (first & Hf & H).
  apply bind_Ok in H. destruct H as (sel & Hsel & H).
  apply bind_Ok in H. destruct H as (y1 & Hy1 & H).
  apply bind_Ok in H. destruct H as (d6 & Hd6 & H).
  apply bind_Ok in H. destruct H as (sel2 & Hsel2 & H).
  apply bind_Ok in H. destruct H as (y2 & Hy2 & H).
  inversion H as [ Hpre ]. clear H.
  set (d3 := dropna_rows (dropna_columns_all d1)) in *.
  set (d4 := rename_columns first Year d3) in *.
  assert (Hl4 : exists rest, labels d4 = Year :: rest).
  { unfold d4. rewrite labels_rename. unfold index_at in Hf.
    destruct (labels d3) as [ | l0 ls ]; simpl in Hf; [ discriminate | ].
    inversion Hf; subst. simpl. rewrite cell_eqb_refl. eauto. }
  destruct sel as [ s1 | ]; simpl in Hy1; [ | discriminate ].
  apply getitem_series in Hsel. destruct Hsel as [ Hu4 _ ].
  set (d5 := setitem d4 Year y1) in *.
  assert (Hl5 : labels d5 = labels d4)
    by (apply labels_setitem; now apply unique_label_present).
  apply dropna_subset_Ok in Hd6. destruct Hd6 as [ mask Hd6 ].
  assert (Hl6 : labels d6 = labels d4) by (rewrite Hd6, labels_take_rows; exact Hl5).
  assert (Hu6 : unique_label d6 Year = true)
    by (rewrite (unique_label_labels d4 d6 Year Hl6); exact Hu4).
  destruct sel2 as [ s2 | ]; simpl in Hy2; [ | discriminate ].
  apply mapM_int_of_value in Hy2.
  assert (Hlp : labels (setitem d6 Year y2) = labels d4).
  { rewrite labels_setitem; auto. now apply unique_label_present. }
  repeat split.
  - destruct Hl4 as [ rest Hrest ]. rewrite Hrest in Hlp. unfold labels in Hlp.
    destruct (cols (setitem d6 Year y2)) as [ | [ l0 year ] cs ]; simpl in Hlp;
      [ discriminate | ].
    inversion Hlp; subst. eauto.
  - rewrite (unique_label_labels d4 (setitem d6 Year y2) Year Hlp). exact Hu4.
  - rewrite cols_setitem by now apply unique_label_present.
    intros c Hc Hy. simpl in Hc. apply in_map_iff in Hc.
    destruct Hc as (c0 & <- & Hc0). destruct (has_label Year c0) eqn:El; simpl in *; auto.
    apply has_label_eq in Hy. congruence.
Qed.

Lemma count_occ_filter (f : cell -> bool) (l : list cell) (x : cell) :
  count_occ cell_eq_dec (filter f l) x =
  if f x then count_occ cell_eq_dec l x else 0.
Proof.
  induction l as [ | y l IH ]; simpl.
  - now destruct (f x).
  - destruct (f y) eqn:Ey; simpl; destruct (cell_eq_dec y x) as [ -> | Hne ]; auto.
    + rewrite Ey in *. now rewrite IH.
    + now rewrite Ey in *.
Qed.

(** The labels that are alone on a column do not repeat. *)
Lemma NoDup_filter_unique (df : DataFrame) :
  NoDup (filter (unique_label df) (labels df)).
Proof.
  apply (NoDup_count_occ cell_eq_dec). intros x. rewrite count_occ_filter.
  unfold unique_label. destruct (count_occ cell_eq_dec (labels df) x =? 1) eqn:E; auto.
  apply Nat.eqb_eq in E. lia.
Qed.

(** Selecting labels that are each alone on a column yields these columns. *)
Lemma getitem_list_unique (df : DataFrame) (ks : list cell) :
  Forall (fun k => unique_label df k = true) ks ->
  exists cs, getitem_list df ks = Ok {| index := index df; cols := cs |} /\
             map fst cs = ks /\ incl cs (cols df).
Proof.
  intros Hks. unfold getitem_list.
  assert (H : exists css,
             mapM (fun key => match filter (has_label key) (cols df) with
                              | [] => Raise KeyError
                              | l => Ok l
                              end) ks = Ok css /\
             map fst (concat css) = ks /\ incl (concat css) (cols df)).
  { induction Hks as [ | k ks Hk _ IH ]; simpl.
    - exists []. repeat split; auto. intros c [].
    - destruct IH as (css & -> & Hfst & Hincl).
      destruct (getitem_unique df k Hk) as (s & _ & Hs). rewrite Hs. simpl.
      exists ([(k, s)] :: css). repeat split; simpl; auto.
      + now rewrite Hfst.
      + intros c [ <- | Hc ]; auto.
        assert (Hin : In (k, s) (filter (has_label k) (cols df))) by (rewrite Hs; now left).
        apply filter_In in Hin. tauto. }
  destruct H as (css & -> & Hfst & Hincl). simpl. eauto.
Qed.

Lemma is_int_no_text (s : Series) :
  forallb is_int s = true -> forallb no_text s = true.
Proof.
  induction s as [ | c s IH ]; simpl; auto.
  intros H. apply andb_true_iff in H. destruct H as [ Hc Hs ].
  rewrite IH by assumption. destruct c as [ | [ z | q | b ] | t ]; try discriminate.
  reflexivity.
Qed.

(** Lines 49 to 58 do not raise, and return a cleaned frame whose labels
    are ["Year"] and the labels that are alone on a column. *)
Lemma numeric_part_cleaned (pre : DataFrame) :
  (exists year rest, cols pre = (Year, year) :: rest) ->
  unique_label pre Year = true ->
  year_ints pre ->
  exists out, numeric_part pre = Ok out /\ CleanedFrame out /\
              labels out = Year :: filter (unique_label pre) (tl (labels pre)).
Proof.
  intros (year & rest & Hcols) Huniq Hints. unfold numeric_part.
  destruct (coerce_loop_labels (tl (labels pre)) pre [Year]) as (Hl & Hi & Hn).
  pose proof (coerce_loop_invariant text_free coerce_column_text_free
                (tl (labels pre)) pre [Year]) as Htf.
  pose proof (coerce_loop_invariant (fun df _ => year_ints df)
                (fun df nc col H => coerce_column_year_ints df nc col H)
                (tl (labels pre)) pre [Year] Hints) as Hyi.
  destruct (fold_left coerce_column (tl (labels pre)) (pre, [Year])) as [ df1 nc1 ].
  simpl in Hl, Hi, Hn, Htf, Hyi.
  assert (Htf1 : text_free df1 nc1).
  { apply Htf. intros c Hc [ Hy | [] ]. apply is_int_no_text. now apply Hints. }
  clear Htf.
  assert (Hlp : labels pre = Year :: tl (labels pre)).
  { unfold labels. now rewrite Hcols. }
  assert (Hnc : nc1 = filter (unique_label pre) (labels pre)).
  { transitivity (filter (unique_label pre) (Year :: tl (labels pre))).
    - simpl. rewrite Huniq. exact Hn.
    - now rewrite <- Hlp. }
  assert (Hks : Forall (fun k => unique_label df1 k = true) nc1).
  { apply Forall_forall. intros k Hk. rewrite (unique_label_labels pre df1 k Hl).
    rewrite Hnc in Hk. apply filter_In in Hk. tauto. }
  destruct (getitem_list_unique df1 nc1 Hks) as (cs & -> & Hfst & Hincl). simpl.
  eexists. split; [ reflexivity | ].
  set (mask := notna_rows (index df1) (map snd cs)).
  assert (Hbelow : forall c, In c cs -> below mask (snd c)).
  { intros c Hc. apply below_notna_rows. now apply in_map. }
  split; [ constructor | ].
  - unfold dropna_rows, take_rows. simpl. fold mask.
    destruct cs as [ | [ l0 y0 ] cs' ]; simpl in Hfst; [ subst nc1; discriminate | ].
    rewrite Hn in Hfst. simpl in Hfst. inversion Hfst; subst l0.
    simpl. eexists. eexists. split; [ reflexivity | ].
    apply forallb_keep. apply (Hyi (Year, y0)); auto. apply Hincl. now left.
  - unfold dropna_rows. rewrite labels_take_rows. unfold labels. simpl.
    rewrite Hfst, Hnc. apply NoDup_filter_unique.
  - unfold dropna_rows, take_rows. simpl. fold mask.
    apply Forall_forall. intros c Hc. apply in_map_iff in Hc.
    destruct Hc as (c0 & <- & Hc0). simpl.
    apply is_number_no_text_notna.
    + apply forallb_keep. apply Htf1; [ now apply Hincl | ].
      rewrite <- Hfst. now apply in_map.
    + apply notna_keep_below. now apply Hbelow.
  - unfold dropna_rows, take_rows. simpl. fold mask.
    apply Forall_forall. intros c Hc. apply in_map_iff in Hc.
    destruct Hc as (c0 & <- & Hc0). simpl.
    apply length_keep_below. now apply Hbelow.
  - unfold dropna_rows. rewrite labels_take_rows. unfold labels at 1. simpl.
    rewrite Hfst. exact Hn.
Qed.

(** Cleaning raises only in its first part, and returns a cleaned frame. *)
Lemma robust_clean_data_cleaned (df : DataFrame) :
  match time_axis df with
  | Ok pre =>
      exists out, robust_clean_data df = Ok out /\ CleanedFrame out /\
                  labels out = Year :: filter (unique_label pre) (tl (labels pre))
  | Raise e => robust_clean_data df = Raise e
  end.
Proof.
  unfold robust_clean_data. destruct (time_axis df) as [ pre | e ] eqn:E; simpl; auto.
  destruct (time_axis_year df pre E) as (Hy & Hu & Hi).
  now apply numeric_part_cleaned.
Qed.

Lemma robust_clean_data_Ok (df out : DataFrame) :
  robust_clean_data df = Ok out -> CleanedFrame out.
Proof.
  intros H. pose proof (robust_clean_data_cleaned df) as Hc.
  destruct (time_axis df) as [ pre | e ]; [ | congruence ].
  destruct Hc as (out' & Hout & Hclean & _). congruence.
Qed.

End Cleaning.

(** *** When cleaning raises *)

Section TimeAxis.

Context {L : Library}.

Lemma combine_map_map {A B C : Type} (f : A -> B) (g : A -> C) (l : list A) :
  combine (map f l) (map g l) = map (fun x => (f x, g x)) l.
Proof. induction l as [ | x l IH ]; simpl; auto. now rewrite IH. Qed.

(** Lines 40 and 41 on a sheet that has a first row. *)
Lemma set_columns_header (df : DataFrame) :
  set_columns (map (fun c => hd NaN (snd c)) (cols df)) (iloc_from1 df) =
  Ok (below_header df).
Proof.
  unfold set_columns, iloc_from1, below_header. simpl.
  rewrite !length_map, Nat.eqb_refl, map_map. simpl.
  now rewrite combine_map_map.
Qed.

(** After [dropna] every column has one value per row. *)
Lemma lengths_dropna_rows (df : DataFrame) :
  Forall (fun c => length (snd c) = index (dropna_rows df)) (cols (dropna_rows df)).
Proof.
  unfold dropna_rows, take_rows. simpl. apply Forall_forall.
  intros c Hc. apply in_map_iff in Hc. destruct Hc as (c0 & <- & Hc0). simpl.
  apply length_keep_below. apply below_notna_rows. now apply in_map.
Qed.

Lemma map2_andb_repeat (flags : list bool) :
  map2 andb flags (repeat true (length flags)) = flags.
Proof.
  induction flags as [ | b flags IH ]; simpl; auto.
  now rewrite IH, andb_true_r.
Qed.

Lemma keep_map {A : Type} (f : A -> bool) (l : list A) : keep (map f l) l = filter f l.
Proof.
  induction l as [ | x l IH ]; simpl; auto. now rewrite IH.
Qed.



Lemma filter_claims_year (first : cell) (rest : list (cell * Series)) :
  existsb (claims_year first) rest = false ->
  map (fun c => (if cell_eqb (fst c) first then Year else fst c, snd c)) rest = rest /\
  filter (has_label Year) rest = [].
Proof.
  induction rest as [ | [ l s ] rest IH ]; simpl; auto.
  intros H. apply orb_false_iff in H. destruct H as [ Hc Hrest ].
  unfold claims_year in Hc. simpl in Hc. apply orb_false_iff in Hc.
  destruct Hc as [ H1 H2 ]. destruct (IH Hrest) as [ -> -> ].
  unfold has_label. simpl. now rewrite H1, H2.
Qed.

Lemma filter_claims_year_clash (first : cell) (rest : list (cell * Series)) :
  existsb (claims_year first) rest = true ->
  filter (has_label Year)
    (map (fun c => (if cell_eqb (fst c) first then Year else fst c, snd c)) rest) <> [].
Proof.
  induction rest as [ | [ l s ] rest IH ]; simpl; [ discriminate | ].
  intros H. unfold has_label at 1. simpl.
  unfold claims_year at 1 in H. simpl in H.
  destruct (cell_eqb l first) eqn:E1; simpl in *.
  - try rewrite cell_eqb_refl. discriminate.
  - destruct (cell_eqb l Year) eqn:E2; simpl in *; [ discriminate | ]. now apply IH.
Qed.

(** Frames whose first column is the only one labelled ["Year"]. *)
Lemma has_label_year_head (y : Series) : has_label Year (Year, y) = true.
Proof. apply has_label_eq. reflexivity. Qed.

Lemma no_year_values (f : Series -> Series) (rest : list (cell * Series)) :
  filter (has_label Year) rest = [] ->
  filter (has_label Year) (map (fun c => (fst c, f (snd c))) rest) = [].
Proof.
  induction rest as [ | [ l s ] rest IH ]; simpl; auto.
  change (has_label Year (l, f s)) with (has_label Year (l, s)).
  destruct (has_label Year (l, s)); [ discriminate | exact IH ].
Qed.

Lemma no_year_setitem (y : Series) (rest : list (cell * Series)) :
  filter (has_label Year) rest = [] ->
  map (fun c => if has_label Year c then (fst c, y) else c) rest = rest.
Proof.
  induction rest as [ | c rest IH ]; simpl; auto.
  destruct (has_label Year c); [ discriminate | ]. intros H. now rewrite IH.
Qed.

Lemma getitem_year (n : nat) (y : Series) (rest : list (cell * Series)) :
  filter (has_label Year) rest = [] ->
  getitem {| index := n; cols := (Year, y) :: rest |} Year = Ok (ASeries y).
Proof.
  intros H. unfold getitem. cbn [cols filter]. now rewrite has_label_year_head, H.
Qed.

Lemma setitem_year (n : nat) (y y' : Series) (rest : list (cell * Series)) :
  filter (has_label Year) rest = [] ->
  setitem {| index := n; cols := (Year, y) :: rest |} Year y' =
  {| index := n; cols := (Year, y') :: rest |}.
Proof.
  intros H. unfold setitem. cbn [cols index existsb map].
  rewrite has_label_year_head. cbn [orb fst].
  now rewrite (no_year_setitem y' rest H).
Qed.

Lemma filter_subset_year (rest : list (cell * Series)) :
  filter (has_label Year) rest = [] ->
  filter (fun c => cell_eqb (fst c) Year || false) rest = [].
Proof.
  intros H. rewrite <- H. apply filter_ext. intros c.
  now rewrite orb_false_r.
Qed.

Lemma dropna_subset_year (y : Series) (rest : list (cell * Series)) :
  filter (has_label Year) rest = [] ->
  dropna_subset [Year] {| index := length y; cols := (Year, y) :: rest |} =
  Ok {| index := count_true (map notna y);
        cols := (Year, filter notna y)
                  :: map (fun c => (fst c, keep (map notna y) (snd c))) rest |}.
Proof.
  intros H. unfold dropna_subset. cbn [cols index forallb existsb filter].
  rewrite has_label_year_head. cbn [orb andb fst].
  rewrite cell_eqb_refl. cbn [orb].
  rewrite (filter_subset_year rest H).
  unfold take_rows, notna_rows. cbn [cols index map snd fst fold_right].
  rewrite <- (length_map notna y), map2_andb_repeat.
  now rewrite keep_map.
Qed.

(** Lines 40 to 47, case by case. *)
Lemma time_axis_outcome (df : DataFrame) :
  time_axis df =
  if index df =? 0 then Raise IndexError
  else match cols (headed df) with
       | [] => Raise IndexError
       | (first, year) :: rest =>
           if existsb (claims_year first) rest then Raise TypeError
           else with_time_axis year rest
       end.
Proof.
  pose proof (lengths_dropna_rows (dropna_columns_all (below_header df))) as Hlen.
  fold (headed df) in Hlen.
  unfold time_axis, iloc0.
  destruct (index df) as [ | n ] eqn:Ei; [ reflexivity | ].
  cbn [bind Nat.eqb]. rewrite set_columns_header. cbn [bind].
  change (dropna_rows (dropna_columns_all (below_header df))) with (headed df).
  destruct (headed df) as [ m cs ]. cbn [cols index] in *.
  destruct cs as [ | [ first year ] rest ]; [ reflexivity | ].
  unfold labels, index_at. cbn [cols map fst nth_error bind].
  unfold rename_columns. cbn [cols index map fst snd]. rewrite cell_eqb_refl.
  inversion Hlen as [ | ? ? Hyear _ ]; subst. cbn [snd] in *. clear Hlen.
  destruct (existsb (claims_year first) rest) eqn:Ecl.
  - apply filter_claims_year_clash in Ecl. unfold getitem. cbn [cols filter].
    rewrite has_label_year_head.
    destruct (filter (has_label Year)
                (map (fun c => (if cell_eqb (fst c) first then Year else fst c, snd c)) rest));
      [ congruence | reflexivity ].
  - destruct (filter_claims_year first rest Ecl) as [ Hren Hno ]. rewrite Hren.
    rewrite (getitem_year _ year rest Hno). cbn [bind to_numeric].
    rewrite (setitem_year _ year (map to_numeric_value year) rest Hno).
    rewrite <- (length_map to_numeric_value year).
    rewrite (dropna_subset_year (map to_numeric_value year) rest Hno). cbn [bind].
    assert (Hno' : filter (has_label Year)
                     (map (fun c => (fst c, keep (map notna (map to_numeric_value year)) (snd c)))
                        rest) = [])
      by now apply no_year_values.
    rewrite (getitem_year _ _ _ Hno'). cbn [bind astype_int].
    unfold with_time_axis.
    destruct (mapM int_of_value (filter notna (map to_numeric_value year))) as [ ints | e ];
      cbn [bind]; auto.
    now rewrite (setitem_year _ _ ints _ Hno').
Qed.



End TimeAxis.

(** *** Cleaning a cleaned frame *)

Section Idempotence.

Context {L : Library}.

Variable out : DataFrame.
Hypothesis Hclean : CleanedFrame out.

Lemma is_number_notna (s : Series) :
  forallb is_number s = true -> forallb notna s = true.
Proof.
  induction s as [ | c s IH ]; simpl; auto.
  intros H. apply andb_true_iff in H. destruct H as [ Hc Hs ].
  rewrite IH by assumption. destruct c; try discriminate. reflexivity.
Qed.

Lemma below_header_with_header : below_header (with_header out) = out.
Proof.
  unfold below_header, with_header. destruct out as [ n cs ]. simpl. f_equal.
  rewrite map_map. simpl. rewrite <- (map_id cs) at 2. apply map_ext.
  now intros [ l s ].
Qed.

Lemma dropna_rows_cleaned : dropna_rows out = out.
Proof.
  destruct Hclean as [ _ _ Hnum Hlen ]. unfold dropna_rows.
  rewrite notna_rows_full; [ now apply take_rows_full | ].
  apply Forall_forall. intros s Hs. apply in_map_iff in Hs.
  destruct Hs as (c & <- & Hc). rewrite Forall_forall in Hnum, Hlen.
  split; [ now apply Hlen | apply is_number_notna; now apply Hnum ].
Qed.

Lemma dropna_columns_cleaned : index out <> 0 -> dropna_columns_all out = out.
Proof.
  intros Hrows. destruct Hclean as [ _ _ Hnum Hlen ]. unfold dropna_columns_all.
  destruct out as [ n cs ]. simpl in *. f_equal.
  apply forallb_filter_id. apply forallb_forall. intros c Hc.
  rewrite Forall_forall in Hnum, Hlen. specialize (Hnum c Hc). specialize (Hlen c Hc).
  destruct (snd c) as [ | x s ]; simpl in *; [ congruence | ].
  apply andb_true_iff in Hnum. destruct Hnum as [ Hx _ ].
  destruct x; try discriminate. reflexivity.
Qed.

Lemma headed_with_header : index out <> 0 -> headed (with_header out) = out.
Proof.
  intros Hrows. unfold headed. rewrite below_header_with_header.
  rewrite dropna_columns_cleaned by assumption. apply dropna_rows_cleaned.
Qed.

(** No other column of a cleaned frame claims the label ["Year"]. *)
Lemma cleaned_no_clash (year : Series) (rest : list (cell * Series)) :
  cols out = (Year, year) :: rest -> existsb (claims_year Year) rest = false.
Proof.
  intros Hcols. destruct Hclean as [ _ Hnd _ _ ]. unfold labels in Hnd.
  rewrite Hcols in Hnd. simpl in Hnd. inversion Hnd as [ | ? ? Hnotin _ ]; subst.
  apply not_true_is_false. intros H. apply existsb_exists in H.
  destruct H as (c & Hc & Hclaim). unfold claims_year in Hclaim.
  rewrite orb_diag in Hclaim. apply cell_eqb_eq in Hclaim.
  apply Hnotin. rewrite <- Hclaim. now apply in_map.
Qed.

Lemma filter_notna_id (s : Series) : forallb notna s = true -> filter notna s = s.
Proof.
  induction s as [ | c s IH ]; simpl; auto.
  intros H. apply andb_true_iff in H. destruct H as [ -> Hs ]. now rewrite IH.
Qed.

Lemma map_notna_true (s : Series) :
  forallb notna s = true -> map notna s = repeat true (length s).
Proof.
  induction s as [ | c s IH ]; simpl; auto.
  intros H. apply andb_true_iff in H. destruct H as [ -> Hs ]. now rewrite IH.
Qed.

(** Lines 40 to 47 return a cleaned frame, written back as a sheet, as it
    is. *)
Lemma time_axis_with_header : index out <> 0 -> time_axis (with_header out) = Ok out.
Proof.
  intros Hrows. rewrite time_axis_outcome, headed_with_header by assumption.
  cbn [with_header index Nat.eqb].
  destruct Hclean as [ (year & rest & Hcols & Hints) Hnd Hnum Hlen ].
  rewrite Hcols. rewrite (cleaned_no_clash year rest Hcols).
  unfold with_time_axis.
  pose proof (is_int_is_number year Hints) as Hyear.
  rewrite (to_numeric_numbers year Hyear).
  rewrite (filter_notna_id year (is_number_notna year Hyear)).
  rewrite (mapM_int_of_value_int year Hints). cbn [bind].
  rewrite (map_notna_true year (is_number_notna year Hyear)), count_true_repeat.
  rewrite Hcols in Hlen. inversion Hlen as [ | ? ? Hy Hrest ]; subst. cbn [snd] in Hy.
  destruct out as [ n cs ]. cbn [index cols] in *. subst cs. rewrite Hy. do 3 apply f_equal.
  rewrite <- (map_id rest) at 2. apply map_ext_in. intros [ l s ] Hc.
  rewrite Forall_forall in Hrest. specialize (Hrest (l, s) Hc). cbn [snd fst] in *.
  rewrite <- Hrest. now rewrite keep_repeat_true.
Qed.

(** The coercion loop leaves a cleaned frame as it is. *)
Lemma coerce_column_cleaned (nc : list cell) (col : cell) :
  fst (coerce_column (out, nc) col) = out.
Proof.
  destruct (unique_label out col) eqn:E.
  - destruct (coerce_column_unique out nc col E) as (s & Hs & ->). cbn [fst].
    assert (Hin : In (col, s) (cols out)).
    { assert (H : In (col, s) (filter (has_label col) (cols out))) by (rewrite Hs; now left).
      apply filter_In in H. tauto. }
    destruct Hclean as [ _ _ Hnum _ ]. rewrite Forall_forall in Hnum.
    rewrite (to_numeric_numbers s (Hnum (col, s) Hin)).
    now apply setitem_same.
  - now rewrite (coerce_column_repeated out nc col E).
Qed.

Lemma filter_unique_cleaned : filter (unique_label out) (labels out) = labels out.
Proof.
  destruct Hclean as [ _ Hnd _ _ ]. apply forallb_filter_id. apply forallb_forall.
  intros k Hk. unfold unique_label. apply Nat.eqb_eq.
  now apply (proj1 (NoDup_count_occ' cell_eq_dec (labels out)) Hnd).
Qed.

Lemma same_columns (cs ds : list (cell * Series)) :
  map fst cs = map fst ds -> incl cs ds -> NoDup (map fst ds) -> cs = ds.
Proof.
  revert ds. induction cs as [ | c cs IH ]; intros [ | d ds ] Hfst Hincl Hnd;
    simpl in *; try discriminate; auto.
  inversion Hfst as [ [ Hc Hcs ] ]. inversion Hnd as [ | ? ? Hnotin Hnd' ]; subst.
  assert (Hcd : c = d).
  { destruct (Hincl c (or_introl eq_refl)) as [ Hd | Hd ]; auto.
    exfalso. apply Hnotin. rewrite <- Hc. now apply in_map. }
  subst d. f_equal. apply IH; auto.
  intros x Hx. destruct (Hincl x (or_intror Hx)) as [ Hd | Hd ]; auto.
  exfalso. apply Hnotin. rewrite <- Hcs. subst x. now apply in_map.
Qed.

Lemma numeric_part_cleaned_frame : numeric_part out = Ok out.
Proof.
  unfold numeric_part.
  destruct (coerce_loop_labels (tl (labels out)) out [Year]) as (_ & _ & Hn).
  pose proof (coerce_loop_invariant (fun df _ => df = out)
                (fun df nc col H =>
                   eq_trans (f_equal (fun d => fst (coerce_column (d, nc) col)) H)
                            (coerce_column_cleaned nc col))
                (tl (labels out)) out [Year] eq_refl) as Hdf.
  destruct (fold_left coerce_column (tl (labels out)) (out, [Year])) as [ df1 nc1 ].
  cbn [fst snd] in *. subst df1.
  assert (Hnc : nc1 = labels out).
  { rewrite Hn. rewrite <- filter_unique_cleaned at 2.
    destruct Hclean as [ (year & rest & Hcols & _) _ _ _ ].
    unfold labels at 2. rewrite Hcols. cbn [map fst filter].
    assert (Hu : unique_label out Year = true).
    { assert (Hin : In Year (filter (unique_label out) (labels out))).
      { rewrite filter_unique_cleaned. unfold labels. rewrite Hcols. now left. }
      apply filter_In in Hin. tauto. }
    rewrite Hu. unfold labels. now rewrite Hcols. }
  rewrite Hnc. clear Hn Hnc nc1.
  assert (Hks : Forall (fun k => unique_label out k = true) (labels out)).
  { apply Forall_forall. intros k Hk. rewrite <- filter_unique_cleaned in Hk.
    apply filter_In in Hk. tauto. }
  destruct (getitem_list_unique out (labels out) Hks) as (cs & -> & Hfst & Hincl).
  cbn [bind].
  assert (Hcs : cs = cols out).
  { apply same_columns; auto. destruct Hclean as [ _ Hnd _ _ ]. exact Hnd. }
  subst cs. rewrite frame_eta. now rewrite dropna_rows_cleaned.
Qed.

(** Cleaning a cleaned frame that has rows, written back as a sheet with
    its labels as the header row, returns the frame. *)
Lemma clean_with_header : index out <> 0 -> robust_clean_data (with_header out) = Ok out.
Proof.
  intros Hrows. unfold robust_clean_data.
  rewrite time_axis_with_header by assumption. cbn [bind].
  apply numeric_part_cleaned_frame.
Qed.

End Idempotence.

(** *** Simulation *)

Section Simulation.

Context {L : Library}.

Lemma bindM_Ok {A B : Type} (m : M A) (k : A -> M B) g (a : A) g1 :
  m g = Ok (a, g1) -> bindM m k g = k a g1.
Proof. unfold bindM. now intros ->. Qed.

Lemma bindM_Raise {A B : Type} (m : M A) (k : A -> M B) g (e : exn) :
  m g = Raise e -> bindM m k g = Raise e.
Proof. unfold bindM. now intros ->. Qed.

Lemma normal_Ok (mean std_dev : np_float) (size : nat) : forall g,
  exists draws g', normal mean std_dev size g = Ok (draws, g') /\ length draws = size.
Proof.
  induction size as [ | n IH ]; intros g; simpl.
  - exists [], g. auto.
  - unfold bindM. destruct (normal1 mean std_dev g) as [ x g1 ].
    destruct (IH g1) as (xs & g2 & -> & Hlen). unfold ret.
    exists (x :: xs), g2. simpl. auto.
Qed.

Lemma length_list_set {A : Type} (l : list A) : forall i x,
  length (list_set l i x) = length l.
Proof.
  induction l as [ | h t IH ]; intros [ | j ] x; simpl; auto.
Qed.

Lemma Forall_list_set {A : Type} (P : A -> Prop) (l : list A) : forall i x,
  Forall P l -> P x -> Forall P (list_set l i x).
Proof.
  induction l as [ | h t IH ]; intros [ | j ] x Hl Hx; simpl; auto;
    inversion Hl; subst; constructor; auto.
Qed.

(** The loop that fills the rows of [simulations] keeps its shape. *)
Lemma fill_rows_Ok (mean std_dev : np_float) (n p : nat) (rows : list nat) :
  forall (simulations : ndarray np_float) g,
    shape simulations = (n, p) ->
    Forall (fun i => i < n) rows ->
    Forall (fun row => length row = p) (arows simulations) ->
    exists simulations' g',
      foldM (fun simulations i =>
               bindM (normal mean std_dev p) (fun draws =>
               lift (set_row simulations i draws)))
            rows simulations g = Ok (simulations', g') /\
      shape simulations' = (n, p) /\
      length (arows simulations') = length (arows simulations) /\
      Forall (fun row => length row = p) (arows simulations').
Proof.
  induction rows as [ | i rows IH ]; intros simulations g Hshape Hrows Hwidth; simpl.
  - exists simulations, g. auto.
  - inversion Hrows as [ | ? ? Hi Hrows' ]; subst.
    unfold bindM at 1. unfold bindM at 1.
    destruct (normal_Ok mean std_dev p g) as (draws & g1 & -> & Hlen).
    unfold lift, set_row. rewrite Hshape. simpl.
    apply Nat.ltb_lt in Hi. rewrite Hi, Hlen, Nat.eqb_refl.
    destruct (IH {| shape := (n, p); arows := list_set (arows simulations) i draws |} g1)
      as (simulations' & g' & Hfold & Hs & Hl & Hw); auto.
    + simpl. now apply Forall_list_set.
    + exists simulations', g'. repeat split; auto.
      rewrite Hl. simpl. apply length_list_set.
Qed.

Lemma length_reduce_axis0 {F : Type} (f : list F -> F) (default : F) (a : ndarray F) :
  length (reduce_axis0 f default a) = snd (shape a).
Proof. unfold reduce_axis0. now rewrite length_map, length_seq. Qed.

Lemma mapM_as_float (s : Series) :
  forallb no_text s = true -> exists fs, mapM as_float s = Ok fs.
Proof.
  induction s as [ | c s IH ]; simpl; intros H.
  - now exists [].
  - apply andb_true_iff in H. destruct H as [ Hc Hs ].
    destruct (IH Hs) as (fs & ->). destruct c; try discriminate; simpl; eauto.
Qed.

(** With fewer than two values the simulation returns three [None]s and
    draws nothing. *)
Lemma monte_carlo_few (data : DataFrame) (variable : cell) (s : Series) (n p : nat) g :
  getitem data variable = Ok (ASeries s) ->
  length (filter notna s) < 2 ->
  monte_carlo_simulation data variable n p g = Ok ((None, None, None), g).
Proof.
  intros Hget Hlen. unfold monte_carlo_simulation, bindM, lift. rewrite Hget. simpl.
  apply Nat.ltb_lt in Hlen. now rewrite Hlen.
Qed.

(** With two values or more, of which none is text, it returns the three
    arrays in their shapes. *)
Lemma monte_carlo_enough (data : DataFrame) (variable : cell) (s : Series) (n p : nat) g :
  getitem data variable = Ok (ASeries s) ->
  forallb no_text s = true ->
  2 <= length (filter notna s) ->
  exists simulations forecast_mean forecast_std_dev g',
    monte_carlo_simulation data variable n p g =
      Ok ((Some simulations, Some forecast_mean, Some forecast_std_dev), g') /\
    length forecast_mean = p /\
    length forecast_std_dev = p /\
    shape simulations = (n, p) /\
    length (arows simulations) = n /\
    Forall (fun row => length row = p) (arows simulations).
Proof.
  intros Hget Htext Hlen. unfold monte_carlo_simulation.
  rewrite (bindM_Ok _ _ g (ASeries s) g) by (unfold lift; now rewrite Hget).
  cbn [dropna_values fst snd].
  apply Nat.ltb_ge in Hlen. rewrite Hlen.
  destruct (mapM_as_float (filter notna s)) as (historical & Hh);
    [ now apply forallb_filter_keeps | ].
  rewrite (bindM_Ok _ _ g historical g) by (unfold lift; now rewrite Hh).
  destruct (fill_rows_Ok (np_mean historical) (np_std historical) n p (seq 0 n)
              (zeros float_zero n p) g) as (simulations & g' & Hfold & Hs & Hl & Hw).
  - reflexivity.
  - apply Forall_forall. intros i Hi. apply in_seq in Hi. lia.
  - simpl. apply Forall_forall. intros row Hrow. apply repeat_spec in Hrow.
    subst row. apply repeat_length.
  - rewrite (bindM_Ok _ _ g simulations g' Hfold). unfold ret.
    exists simulations, (reduce_axis0 np_mean float_zero simulations),
      (reduce_axis0 np_std float_zero simulations), g'.
    rewrite !length_reduce_axis0, Hs. simpl in Hl. rewrite repeat_length in Hl.
    repeat split; auto.
Qed.

(** Past the test on the number of values, the simulation returns no
    [None]. *)
Lemma monte_carlo_some (data : DataFrame) (variable : cell) (s : Series) (n p : nat)
  g (r : simulation) g' :
  getitem data variable = Ok (ASeries s) ->
  monte_carlo_simulation data variable n p g = Ok (r, g') ->
  fst (fst r) = None ->
  length (filter notna s) < 2.
Proof.
  intros Hget Hrun Hnone. unfold monte_carlo_simulation in Hrun.
  unfold bindM at 1 in Hrun. unfold lift at 1 in Hrun. rewrite Hget in Hrun.
  simpl in Hrun.
  destruct (length (filter notna s) <? 2) eqn:E; [ now apply Nat.ltb_lt in E | ].
  exfalso. unfold bindM at 1 in Hrun. unfold lift at 1 in Hrun.
  destruct (mapM as_float (filter notna s)) as [ historical | e ]; [ | discriminate ].
  unfold bindM at 1 in Hrun.
  match type of Hrun with
  | match ?m with _ => _ end = _ => destruct m as [ [ simulations g1 ] | e ]
  end; [ | discriminate ].
  unfold ret in Hrun. inversion Hrun; subst. discriminate.
Qed.

End Simulation.

(** *** The pipeline *)

Section Pipeline.

Context {L : Library}.

Variable key_variables : list string.
Variables max_lag num_simulations forecast_period : nat.

Lemma foldM_Ok {A B : Type} (f : A -> B -> M A) :
  (forall a x g, exists a' g', f a x g = Ok (a', g')) ->
  forall l a g, exists a' g', foldM f l a g = Ok (a', g').
Proof.
  intros Hf. induction l as [ | x l IH ]; intros a g; simpl.
  - unfold ret. eauto.
  - destruct (Hf a x g) as (a1 & g1 & H1). rewrite (bindM_Ok _ _ g a1 g1 H1). apply IH.
Qed.

Lemma is_number_no_text (s : Series) :
  forallb is_number s = true -> forallb no_text s = true.
Proof.
  induction s as [ | c s IH ]; simpl; auto.
  intros H. apply andb_true_iff in H. destruct H as [ Hc Hs ].
  rewrite IH by assumption. destruct c; try discriminate. reflexivity.
Qed.

(** In a cleaned frame every label is alone on its column, and the column
    holds numbers. *)
Lemma cleaned_getitem (data : DataFrame) (key : cell) :
  CleanedFrame data -> In key (labels data) ->
  exists s, getitem data key = Ok (ASeries s) /\ In (key, s) (cols data) /\
            forallb is_number s = true.
Proof.
  intros [ _ Hnd Hnum _ ] Hin.
  assert (Hu : unique_label data key = true).
  { unfold unique_label. apply Nat.eqb_eq.
    now apply (proj1 (NoDup_count_occ' cell_eq_dec (labels data)) Hnd). }
  destruct (getitem_unique data key Hu) as (s & Hget & Hs).
  assert (Hc : In (key, s) (cols data)).
  { assert (H : In (key, s) (filter (has_label key) (cols data))) by (rewrite Hs; now left).
    apply filter_In in H. tauto. }
  exists s. repeat split; auto.
  rewrite Forall_forall in Hnum. now apply (Hnum (key, s)).
Qed.

(** On a cleaned frame the simulation of a variable does not raise. *)
Lemma simulate_variable_cleaned (cleaned_data : DataFrame) :
  CleanedFrame cleaned_data ->
  forall results var g,
  exists results' g',
    simulate_variable cleaned_data num_simulations forecast_period results var g =
    Ok (results', g').
Proof.
  intros Hclean results var g. unfold simulate_variable.
  destruct (existsb (cell_eqb (Str var)) (labels cleaned_data)) eqn:E.
  - apply existsb_exists in E. destruct E as (l & Hl & El).
    apply cell_eqb_eq in El. subst l.
    destruct (cleaned_getitem cleaned_data (Str var) Hclean Hl) as (s & Hget & _ & Hnum).
    destruct (Nat.lt_ge_cases (length (filter notna s)) 2) as [ Hlen | Hlen ].
    + do 2 eexists.
      rewrite (bindM_Ok _ _ g _ g
                 (monte_carlo_few cleaned_data (Str var) s num_simulations
                    forecast_period g Hget Hlen)).
      reflexivity.
    + destruct (monte_carlo_enough cleaned_data (Str var) s num_simulations
                  forecast_period g Hget (is_number_no_text s Hnum) Hlen)
        as (sims & fm & fsd & g' & Hrun & _).
      do 2 eexists. rewrite (bindM_Ok _ _ g _ g' Hrun). reflexivity.
  - unfold ret. eauto.
Qed.

Lemma analyze_sheet_invalid (df cleaned_data : DataFrame) g :
  robust_clean_data df = Ok cleaned_data ->
  validate_data cleaned_data 10 = false ->
  analyze_sheet key_variables max_lag num_simulations forecast_period df g =
  Ok (SheetError "Insufficient data for analysis", g).
Proof.
  intros Hclean Hvalid. unfold analyze_sheet.
  rewrite (bindM_Ok _ _ g cleaned_data g) by (unfold lift; now rewrite Hclean).
  now rewrite Hvalid.
Qed.

Lemma analyze_sheet_valid (df cleaned_data : DataFrame) g :
  robust_clean_data df = Ok cleaned_data ->
  validate_data cleaned_data 10 = true ->
  exists simulation_results g',
    analyze_sheet key_variables max_lag num_simulations forecast_period df g =
    Ok (SheetAnalysis (granger_causality_analysis cleaned_data max_lag) simulation_results,
        g').
Proof.
  intros Hclean Hvalid. unfold analyze_sheet.
  rewrite (bindM_Ok _ _ g cleaned_data g) by (unfold lift; now rewrite Hclean).
  rewrite Hvalid. simpl.
  destruct (foldM_Ok (simulate_variable cleaned_data num_simulations forecast_period)
              (simulate_variable_cleaned cleaned_data (robust_clean_data_Ok df cleaned_data Hclean))
              key_variables [] g) as (sim & g' & Hsim).
  rewrite (bindM_Ok _ _ g sim g' Hsim). unfold ret. eauto.
Qed.

Lemma analyze_sheet_Ok (df cleaned_data : DataFrame) g :
  robust_clean_data df = Ok cleaned_data ->
  exists r g',
    analyze_sheet key_variables max_lag num_simulations forecast_period df g = Ok (r, g').
Proof.
  intros Hclean. destruct (validate_data cleaned_data 10) eqn:E.
  - destruct (analyze_sheet_valid df cleaned_data g Hclean E) as (sim & g' & H). eauto.
  - rewrite (analyze_sheet_invalid df cleaned_data g Hclean E). eauto.
Qed.

Lemma analyze_sheet_Raise (df : DataFrame) (e : exn) g :
  robust_clean_data df = Raise e ->
  analyze_sheet key_variables max_lag num_simulations forecast_period df g = Raise e.
Proof.
  intros Hclean. unfold analyze_sheet. apply bindM_Raise. unfold lift. now rewrite Hclean.
Qed.

(** The sheet [entry] was analysed into the entry [kv] of the report. *)
Definition analysed (entry : string * DataFrame) (kv : string * SheetResult pvalue np_float) : Prop :=
  fst kv = fst entry /\
  exists g1 g2,
    analyze_sheet key_variables max_lag num_simulations forecast_period (snd entry) g1 =
    Ok (snd kv, g2).

(** The loop over the sheets, from any report built so far. *)
Definition analyze_from (sheets_data : list (string * DataFrame))
  (results : dict (SheetResult pvalue np_float)) : M (dict (SheetResult pvalue np_float)) :=
  foldM (fun results entry =>
           bindM (analyze_sheet key_variables max_lag num_simulations forecast_period
                    (snd entry))
             (fun r => ret (dict_set results (fst entry) r)))
        sheets_data results.

Lemma analyze_from_Ok (sheets_data : list (string * DataFrame)) :
  forall results g report g',
    NoDup (keys results ++ map fst sheets_data) ->
    analyze_from sheets_data results g = Ok (report, g') ->
    exists new, report = results ++ new /\ Forall2 analysed sheets_data new /\
                Forall (fun entry => exists cleaned_data,
                            robust_clean_data (snd entry) = Ok cleaned_data) sheets_data.
Proof.
  induction sheets_data as [ | [ sheet df ] sheets IH ]; intros results g report g' Hnd Hrun.
  - inversion Hrun; subst. exists []. rewrite app_nil_r. auto.
  - unfold analyze_from in Hrun. simpl in Hrun.
    destruct (robust_clean_data df) as [ cleaned_data | e ] eqn:Hclean.
    + destruct (analyze_sheet_Ok df cleaned_data g Hclean) as (r & g1 & Hr).
      rewrite (bindM_Ok _ _ g (dict_set results sheet r) g1) in Hrun
        by (rewrite (bindM_Ok _ _ g r g1 Hr); reflexivity).
      assert (Hfresh : ~ In sheet (keys results)).
      { simpl in Hnd. apply NoDup_remove_2 in Hnd. intros Hin. apply Hnd.
        apply in_or_app. now left. }
      rewrite (dict_set_fresh _ results sheet r Hfresh) in Hrun.
      apply IH in Hrun.
      * destruct Hrun as (new & -> & Hnew & Hall).
        exists ((sheet, r) :: new). rewrite <- app_assoc. repeat split; auto.
        -- constructor; auto. split; simpl; eauto.
        -- constructor; auto. simpl. eauto.
      * unfold keys in *. rewrite map_app. simpl. rewrite <- app_assoc. exact Hnd.
    + rewrite (bindM_Raise _ _ g e) in Hrun; [ discriminate | ].
      apply bindM_Raise. now apply analyze_sheet_Raise.
Qed.

Lemma analyze_from_total (sheets_data : list (string * DataFrame)) :
  Forall (fun entry => exists cleaned_data,
              robust_clean_data (snd entry) = Ok cleaned_data) sheets_data ->
  forall results g, exists report g', analyze_from sheets_data results g = Ok (report, g').
Proof.
  induction 1 as [ | [ sheet df ] sheets (cleaned_data & Hclean) _ IH ]; intros results g.
  - unfold analyze_from. simpl. unfold ret. eauto.
  - unfold analyze_from. simpl in *.
    destruct (analyze_sheet_Ok df cleaned_data g Hclean) as (r & g1 & Hr).
    rewrite (bindM_Ok _ _ g (dict_set results sheet r) g1)
      by (rewrite (bindM_Ok _ _ g r g1 Hr); reflexivity).
    apply IH.
Qed.

Lemma dict_get_NoDup {V : Type} (d : dict V) (k : string) (v : V) :
  NoDup (keys d) -> In (k, v) d -> dict_get d k = Some v.
Proof.
  intros Hnd Hin. apply dict_get_unique; auto.
  intros v' Hv'. clear - Hnd Hin Hv'.
  induction d as [ | [ k0 v0 ] d IH ]; simpl in *; [ tauto | ].
  inversion Hnd as [ | ? ? Hnotin Hnd' ]; subst.
  destruct Hin as [ Hin | Hin ], Hv' as [ Hv' | Hv' ].
  - congruence.
  - inversion Hin; subst. exfalso. apply Hnotin. apply in_map_iff. now exists (k, v').
  - inversion Hv'; subst. exfalso. apply Hnotin. apply in_map_iff. now exists (k, v).
  - now apply IH.
Qed.

Lemma analysed_keys (sheets_data : list (string * DataFrame)) (new : dict (SheetResult pvalue np_float)) :
  Forall2 analysed sheets_data new -> keys new = map fst sheets_data.
Proof.
  induction 1 as [ | entry kv sheets new [ Hk _ ] _ IH ]; simpl; auto.
  now rewrite Hk, IH.
Qed.

Lemma analysed_in (sheets_data : list (string * DataFrame)) (new : dict (SheetResult pvalue np_float))
  (entry : string * DataFrame) :
  Forall2 analysed sheets_data new -> In entry sheets_data ->
  exists kv, In kv new /\ analysed entry kv.
Proof.
  induction 1 as [ | entry0 kv sheets new Hkv _ IH ]; simpl; intros Hin; [ tauto | ].
  destruct Hin as [ -> | Hin ].
  - exists kv. auto.
  - destruct (IH Hin) as (kv' & Hin' & Hkv'). exists kv'. auto.
Qed.

End Pipeline.
(** *** What cleaning keeps of a sheet *)

Section CleaningBounds.

Context {L : Library}.

Lemma count_true_le (mask : list bool) : count_true mask <= length mask.
Proof. unfold count_true. apply filter_length_le. Qed.

Lemma index_dropna_rows_le (df : DataFrame) : index (dropna_rows df) <= index df.
Proof.
  unfold dropna_rows, take_rows. cbn [index].
  etransitivity; [ apply count_true_le | apply length_notna_rows_le ].
Qed.

Lemma length_filter_le {A : Type} (f : A -> bool) (l : list A) :
  length (filter f l) <= length l.
Proof. apply filter_length_le. Qed.

(** Lines 40 to 47 take the header row off and add neither a row nor a
    column. *)
Lemma time_axis_bounds (df pre : DataFrame) :
  time_axis df = Ok pre ->
  index pre < index df /\ length (cols pre) <= length (cols df).
Proof.
  rewrite time_axis_outcome.
  destruct (index df =? 0) eqn:E0; [ discriminate | ]. apply Nat.eqb_neq in E0.
  pose proof (lengths_dropna_rows (dropna_columns_all (below_header df))) as Hlen.
  pose proof (index_dropna_rows_le (dropna_columns_all (below_header df))) as Hidx.
  assert (Hcols : length (cols (headed df)) <= length (cols df)).
  { unfold headed, dropna_rows, take_rows, dropna_columns_all, below_header.
    cbn [cols]. rewrite length_map.
    etransitivity; [ apply length_filter_le | ]. now rewrite length_map. }
  fold (headed df) in Hlen, Hidx.
  destruct (cols (headed df)) as [ | [ first year ] rest ]; [ discriminate | ].
  destruct (existsb (claims_year first) rest); [ discriminate | ].
  unfold with_time_axis.
  destruct (mapM int_of_value (filter notna (map to_numeric_value year))) as [ ints | e ];
    cbn [bind]; [ | discriminate ].
  intros H. inversion H; subst pre. clear H. cbn [index cols].
  inversion Hlen as [ | ? ? Hyear _ ]; subst. cbn [snd] in Hyear.
  cbn [dropna_columns_all below_header index] in Hidx.
  split.
  - pose proof (count_true_le (map notna (map to_numeric_value year))) as Hc.
    rewrite !length_map in Hc. lia.
  - cbn [length] in *. rewrite length_map. exact Hcols.
Qed.

Lemma numeric_part_index (pre out : DataFrame) :
  numeric_part pre = Ok out -> index out <= index pre.
Proof.
  unfold numeric_part.
  destruct (coerce_loop_labels (tl (labels pre)) pre [Year]) as (_ & Hidx & _).
  destruct (fold_left coerce_column (tl (labels pre)) (pre, [Year]))
    as [ df_cleaned numeric_columns ].
  cbn [fst] in Hidx. intros H.
  apply bind_Ok in H. destruct H as (selected & Hsel & Hout).
  inversion Hout; subst out. clear Hout.
  unfold getitem_list in Hsel. apply bind_Ok in Hsel.
  destruct Hsel as (cs & _ & Hsel). inversion Hsel; subst selected.
  etransitivity; [ apply index_dropna_rows_le | ]. cbn [index]. lia.
Qed.

(** Cleaning returns fewer rows than it is given, when it returns. *)
Lemma robust_clean_data_rows (df out : DataFrame) :
  robust_clean_data df = Ok out -> index out < index df.
Proof.
  intros Hout. unfold robust_clean_data in Hout.
  destruct (time_axis df) as [ pre | e ] eqn:Hpre; [ | discriminate ].
  cbn [bind] in Hout. apply numeric_part_index in Hout.
  destruct (time_axis_bounds df pre Hpre) as [ Hidx _ ]. lia.
Qed.

(** Cleaning raises [IndexError] on a frame without rows. *)
Lemma robust_clean_data_no_row (df : DataFrame) :
  index df = 0 -> robust_clean_data df = Raise IndexError.
Proof.
  intros H. unfold robust_clean_data. rewrite time_axis_outcome, H. reflexivity.
Qed.

End CleaningBounds.

(** *** The claims on cleaning, validation, simulation and the pipeline *)

Section PipelineClaims.

Context {L : Library}.



(** C5 (amended).  For a frame that cleaning has returned, with exact
    labels: handed back as a sheet, its labels on top as the header row,
    and with at least one row, it is cleaned to itself, no row and no
    column dropped; handed back as it is, it is never returned (cleaning
    takes its first row for the header: it raises, or returns a frame with
    fewer rows); and without rows, handed back as it is, it makes cleaning
    raise [IndexError]. *)
Theorem clean_is_idempotent (df out : DataFrame) :
  robust_clean_data df = Ok out ->
  exact_labels (labels out) = true ->
  (index out <> 0 -> robust_clean_data (with_header out) = Ok out)
  /\ (forall out', robust_clean_data out = Ok out' -> index out' < index out)
  /\ (index out = 0 -> robust_clean_data out = Raise IndexError).
Proof.
  intros Hout _. split; [ | split ].
  - intros Hrows. apply clean_with_header; auto.
    now apply (robust_clean_data_Ok df).
  - intros out' Hout'. now apply robust_clean_data_rows.
  - apply robust_clean_data_no_row.
Qed.

(** C7.  [validate_data] is true exactly when the frame has at least
    [min_rows] rows once its incomplete rows are dropped.  For a sheet whose
    cleaned frame fails the test with the default of 10, the body of the
    loop returns the sheet level marker and leaves the random generator as
    it was (no causality test, no draw), and the marker is what the report
    holds for the sheet. *)
Theorem validate_data_gates_the_sheet :
  (forall df min_rows,
      validate_data df min_rows = true <-> min_rows <= index (dropna_rows df))
  /\ (forall key_variables max_lag num_simulations forecast_period df cleaned_data g,
         robust_clean_data df = Ok cleaned_data ->
         validate_data cleaned_data 10 = false ->
         analyze_sheet key_variables max_lag num_simulations forecast_period df g =
         Ok (SheetError "Insufficient data for analysis", g))
  /\ (forall sheets_data key_variables max_lag num_simulations forecast_period g
             report g' sheet df cleaned_data,
         NoDup (map fst sheets_data) ->
         analyze_sheets sheets_data key_variables max_lag num_simulations forecast_period g =
         Ok (report, g') ->
         In (sheet, df) sheets_data ->
         robust_clean_data df = Ok cleaned_data ->
         validate_data cleaned_data 10 = false ->
         dict_get report sheet = Some (SheetError "Insufficient data for analysis")).
Proof.
  repeat split.
  - unfold validate_data. now intros H%Nat.leb_le.
  - unfold validate_data. now intros H%Nat.leb_le.
  - intros. now apply (analyze_sheet_invalid _ _ _ _ df cleaned_data).
  - intros sheets_data key_variables max_lag n p g report g' sheet df cleaned_data
           Hnd Hrun Hin Hclean Hvalid.
    apply (analyze_from_Ok key_variables max_lag n p sheets_data [] g report g') in Hrun;
      [ | exact Hnd ].
    destruct Hrun as (new & -> & Hnew & _). cbn [app].
    destruct (analysed_in _ _ _ _ _ _ (sheet, df) Hnew Hin) as ([ k r ] & Hkv & Hk & Hr).
    cbn [fst snd] in *. subst k. destruct Hr as (g1 & g2 & Hr).
    rewrite (analyze_sheet_invalid _ _ _ _ df cleaned_data g1 Hclean Hvalid) in Hr.
    inversion Hr; subst.
    apply dict_get_NoDup; auto.
    rewrite (analysed_keys _ _ _ _ _ _ Hnew). exact Hnd.
Qed.

(** C8.  For a variable whose column holds numbers (as every column of a
    cleaned frame does), at least two of them not missing, the simulation
    returns a forecast mean and a forecast standard deviation of length
    [forecast_period] each, and a trial matrix of shape [num_simulations] by
    [forecast_period]. *)
Theorem monte_carlo_simulation_shapes (data : DataFrame) (variable : cell) (s : Series)
  (num_simulations forecast_period : nat) (g : rng) :
  getitem data variable = Ok (ASeries s) ->
  forallb no_text s = true ->
  2 <= length (filter notna s) ->
  exists simulations forecast_mean forecast_std_dev g',
    monte_carlo_simulation data variable num_simulations forecast_period g =
      Ok ((Some simulations, Some forecast_mean, Some forecast_std_dev), g') /\
    length forecast_mean = forecast_period /\
    length forecast_std_dev = forecast_period /\
    shape simulations = (num_simulations, forecast_period) /\
    length (arows simulations) = num_simulations /\
    Forall (fun row => length row = forecast_period) (arows simulations).
Proof.
  intros Hget Htext Hlen. now apply (monte_carlo_enough data variable s).
Qed.

(** C9.  For a variable with its column [s]: the simulation returns three
    [None]s, no trial matrix, and draws nothing, if and only if fewer than
    two values remain once the missing ones are discarded; and the pipeline
    stores ["Insufficient data for simulation"] for the variable if and only
    if that is the case. *)
Theorem monte_carlo_insufficient_data (data : DataFrame) (var : string) (s : Series)
  (num_simulations forecast_period : nat) (g : rng) :
  getitem data (Str var) = Ok (ASeries s) ->
  (length (filter notna s) < 2 ->
   monte_carlo_simulation data (Str var) num_simulations forecast_period g =
   Ok ((None, None, None), g))
  /\ (forall r g',
         monte_carlo_simulation data (Str var) num_simulations forecast_period g =
         Ok (r, g') ->
         fst (fst r) = None -> length (filter notna s) < 2)
  /\ (forall results,
         length (filter notna s) < 2 ->
         simulate_variable data num_simulations forecast_period results var g =
         Ok (dict_set results var InsufficientSimulationData, g))
  /\ (forall results results' g',
         simulate_variable data num_simulations forecast_period results var g =
         Ok (results', g') ->
         dict_get results' var = Some InsufficientSimulationData ->
         length (filter notna s) < 2).
Proof.
  intros Hget.
  assert (Hpresent : existsb (cell_eqb (Str var)) (labels data) = true).
  { apply getitem_series in Hget. destruct Hget as [ _ Hs ].
    apply existsb_exists. exists (Str var). split; [ | apply cell_eqb_refl ].
    assert (Hin : In (Str var, s) (filter (has_label (Str var)) (cols data)))
      by (rewrite Hs; now left).
    apply filter_In in Hin. destruct Hin as [ Hin _ ].
    unfold labels. apply in_map_iff. now exists (Str var, s). }
  repeat split.
  - intros Hlen. now apply (monte_carlo_few data (Str var) s).
  - intros r g' Hrun Hnone.
    now apply (monte_carlo_some data (Str var) s num_simulations forecast_period g r g').
  - intros results Hlen. unfold simulate_variable. rewrite Hpresent.
    now rewrite (bindM_Ok _ _ g _ g
                   (monte_carlo_few data (Str var) s num_simulations forecast_period
                      g Hget Hlen)).
  - intros results results' g' Hrun Hmarker. unfold simulate_variable in Hrun.
    rewrite Hpresent in Hrun. unfold bindM in Hrun.
    destruct (monte_carlo_simulation data (Str var) num_simulations forecast_period g)
      as [ [ [ [ simulations forecast_mean ] forecast_std_dev ] g1 ] | e ] eqn:Hmc;
      [ | discriminate ].
    destruct simulations as [ simulations | ].
    + unfold ret in Hrun. inversion Hrun; subst.
      rewrite dict_get_set_eq in Hmarker. discriminate.
    + now apply (monte_carlo_some data (Str var) s num_simulations forecast_period
                   g _ g1 Hget Hmc).
Qed.

(** C1 (amended).  For sheets under distinct identifiers, the run returns
    a report if and only if cleaning raises on none of the sheets (the
    exception of cleaning is not caught and ends the run); the report then
    holds exactly one entry per sheet identifier, in the order of the
    input. *)
Theorem analyze_sheets_report (sheets_data : list (string * DataFrame))
  (key_variables : list string) (max_lag num_simulations forecast_period : nat) (g : rng) :
  NoDup (map fst sheets_data) ->
  ((exists report g',
       analyze_sheets sheets_data key_variables max_lag num_simulations forecast_period g =
       Ok (report, g'))
   <-> Forall (fun entry => exists cleaned_data,
                   robust_clean_data (snd entry) = Ok cleaned_data) sheets_data)
  /\ (forall report g',
         analyze_sheets sheets_data key_variables max_lag num_simulations forecast_period g =
         Ok (report, g') ->
         keys report = map fst sheets_data).
Proof.
  intros Hnd. repeat split.
  - intros (report & g' & Hrun).
    apply (analyze_from_Ok key_variables max_lag num_simulations forecast_period
             sheets_data [] g report g') in Hrun; [ | exact Hnd ].
    destruct Hrun as (new & _ & _ & Hall). exact Hall.
  - intros Hall.
    apply (analyze_from_total key_variables max_lag num_simulations forecast_period
             sheets_data Hall [] g).
  - intros report g' Hrun.
    apply (analyze_from_Ok key_variables max_lag num_simulations forecast_period
             sheets_data [] g report g') in Hrun; [ | exact Hnd ].
    destruct Hrun as (new & -> & Hnew & _). cbn [app].
    apply (analysed_keys _ _ _ _ _ _ Hnew).
Qed.

End PipelineClaims.
(** ** Further properties of the program *)

(** *** What the causality analysis holds *)

Section DictionaryShape.

Variable V : Type.

Lemma in_dict_set (d : dict V) (k : string) (v : V) (kv : string * V) :
  In kv (dict_set d k v) -> In kv d \/ kv = (k, v).
Proof.
  induction d as [ | [ k0 v0 ] d IH ]; simpl.
  - intros [ <- | [] ]. now right.
  - destruct (String.eqb k k0) eqn:E.
    + apply String.eqb_eq in E. subst k0. simpl. intros [ <- | H ]; auto.
    + simpl. intros [ <- | H ]; auto. destruct (IH H); auto.
Qed.

Lemma in_set_all (l : list (string * V)) : forall (d : dict V) (kv : string * V),
  In kv (set_all l d) -> In kv d \/ In kv l.
Proof.
  induction l as [ | [ k v ] l IH ]; simpl; intros d kv H; auto.
  apply IH in H. destruct H as [ H | H ]; auto.
  apply in_dict_set in H. destruct H as [ H | -> ]; auto.
Qed.

Lemma length_dict_set_le (d : dict V) (k : string) (v : V) :
  length (dict_set d k v) <= S (length d).
Proof.
  induction d as [ | [ k0 v0 ] d IH ]; simpl; auto.
  destruct (String.eqb k k0); simpl; lia.
Qed.

Lemma length_set_all_le (l : list (string * V)) : forall d : dict V,
  length (set_all l d) <= length d + length l.
Proof.
  induction l as [ | [ k v ] l IH ]; simpl; intros d; [ lia | ].
  etransitivity; [ apply IH | ].
  pose proof (length_dict_set_le d k v). lia.
Qed.

Lemma NoDup_keys_dict_set (d : dict V) (k : string) (v : V) :
  NoDup (keys d) -> NoDup (keys (dict_set d k v)).
Proof.
  intros Hnd. destruct (in_dec string_dec k (keys d)) as [ Hin | Hout ].
  - now rewrite keys_dict_set_in.
  - rewrite dict_set_fresh by assumption. unfold keys in *. rewrite map_app. simpl.
    apply NoDup_app; auto.
    + repeat constructor. intros [].
    + intros x Hx [ <- | [] ]. contradiction.
Qed.

Lemma NoDup_keys_set_all (l : list (string * V)) : forall d : dict V,
  NoDup (keys d) -> NoDup (keys (set_all l d)).
Proof.
  induction l as [ | [ k v ] l IH ]; simpl; intros d Hnd; auto.
  apply IH. now apply NoDup_keys_dict_set.
Qed.

End DictionaryShape.

Section CausalityShape.

Context {L : Library}.

Lemma length_others_le (variables : list cell) (var1 : cell) :
  notna var1 = true -> In var1 variables ->
  length (filter (fun var2 => py_ne var1 var2) variables) <= length variables - 1.
Proof.
  intros Hna. induction variables as [ | v variables IH ]; simpl; [ tauto | ].
  intros [ -> | Hin ].
  - rewrite (py_ne_refl var1 Hna).
    pose proof (filter_length_le (fun var2 => py_ne var1 var2) variables). lia.
  - destruct (py_ne var1 v); simpl; specialize (IH Hin).
    + destruct variables; simpl in *; [ tauto | lia ].
    + lia.
Qed.

Lemma length_pairs_le (inner outer : list cell) :
  incl outer inner -> forallb notna outer = true ->
  length (flat_map
            (fun var1 => map (pair var1) (filter (fun var2 => py_ne var1 var2) inner))
            outer)
  <= length outer * (length inner - 1).
Proof.
  induction outer as [ | v outer IH ]; simpl; intros Hincl Hna; auto.
  apply andb_true_iff in Hna. destruct Hna as [ Hv Hna ].
  rewrite length_app, length_map.
  pose proof (length_others_le inner v Hv (Hincl v (or_introl eq_refl))).
  assert (Hi : incl outer inner) by (intros x Hx; apply Hincl; now right).
  specialize (IH Hi Hna). lia.
Qed.

(** Without a missing label there are at most V * (V - 1) pairs. *)
Lemma length_ordered_pairs_le (variables : list cell) :
  forallb notna variables = true ->
  length (ordered_pairs variables) <= length variables * (length variables - 1).
Proof. intros Hna. apply length_pairs_le; auto. apply incl_refl. Qed.

Lemma length_pairs_square (inner outer : list cell) :
  length (flat_map
            (fun var1 => map (pair var1) (filter (fun var2 => py_ne var1 var2) inner))
            outer)
  <= length outer * length inner.
Proof.
  induction outer as [ | v outer IH ]; simpl; auto.
  rewrite length_app, length_map.
  pose proof (filter_length_le (fun var2 => py_ne v var2) inner). lia.
Qed.

(** There are never more than V * V pairs. *)
Lemma length_ordered_pairs_square (variables : list cell) :
  length (ordered_pairs variables) <= length variables * length variables.
Proof. apply length_pairs_square. Qed.


(** A value of the causality mapping is a list of [max_lag] p-values or a
    text that starts with ["Error: "]. *)
Lemma granger_value_shape (data : DataFrame) (max_lag : nat)
  (entry : string * CausalityResult pvalue) :
  In entry (granger_causality_analysis data max_lag) ->
  match snd entry with
  | PValues p_values => length p_values = max_lag
  | ErrorText text => exists description, text = ("Error: " ++ description)%string
  end.
Proof.
  rewrite granger_sets. intros Hin.
  apply in_set_all in Hin. destruct Hin as [ [] | Hin ].
  apply in_map_iff in Hin. destruct Hin as (p & <- & _).
  cbn [entry_of snd]. unfold granger_entry, granger_test.
  destruct (getitem_list data [fst p; snd p]) as [ sub | e ]; [ | eauto ].
  destruct (grangercausalitytests sub max_lag) as [ description | test_result ]; [ eauto | ].
  now rewrite length_map, length_seq.
Qed.

End CausalityShape.
(** *** What the simulation draws *)

Section SimulationDraws.

Context {L : Library}.




Lemma list_set_app {A : Type} (pre : list A) (z x : A) (tail : list A) :
  list_set (pre ++ z :: tail) (length pre) x = pre ++ x :: tail.
Proof. induction pre as [ | h pre IH ]; simpl; auto. now rewrite IH. Qed.

(** The loop over [range(num_simulations)] replaces the rows of the array
    one after the other by the draws, in the order of the draws. *)
Lemma fill_rows_draws (mean std_dev : np_float) (n p : nat) :
  forall m k (pre tail : list (list np_float)) g,
    length pre = k -> length tail = m -> k + m = n ->
    exists rows g',
      draw_rows mean std_dev p m g = Ok (rows, g') /\
      foldM (fun simulations i =>
               bindM (normal mean std_dev p) (fun draws =>
               lift (set_row simulations i draws)))
            (seq k m) {| shape := (n, p); arows := pre ++ tail |} g =
      Ok ({| shape := (n, p); arows := pre ++ rows |}, g').
Proof.
  induction m as [ | m IH ]; intros k pre tail g Hpre Htail Hn.
  - destruct tail; [ | discriminate ]. exists [], g. split; reflexivity.
  - destruct tail as [ | z tail ]; [ discriminate | ].
    cbn [seq foldM draw_rows].
    destruct (normal_Ok mean std_dev p g) as (row & g1 & Hrow & Hlen).
    destruct (IH (S k) (pre ++ [row]) tail g1) as (rows & g' & Hrows & Hfold).
    { rewrite length_app. simpl. lia. }
    { simpl in Htail. lia. }
    { lia. }
    exists (row :: rows), g'. split.
    + rewrite (bindM_Ok _ _ g row g1 Hrow).
      rewrite (bindM_Ok _ _ g1 rows g' Hrows). reflexivity.
    + rewrite <- app_assoc in Hfold. cbn [app] in Hfold.
      rewrite (bindM_Ok _ _ g {| shape := (n, p); arows := pre ++ row :: tail |} g1).
      * rewrite <- app_assoc in Hfold. exact Hfold.
      * rewrite (bindM_Ok _ _ g row g1 Hrow). unfold lift, set_row. cbn [shape fst snd arows].
        assert (Hk : (k <? n) = true) by (apply Nat.ltb_lt; lia).
        rewrite Hk, Hlen, Nat.eqb_refl. subst k. now rewrite list_set_app.
Qed.

End SimulationDraws.
(** *** What the pipeline stores for a sheet *)

Section PipelineEntries.

Context {L : Library}.

Variables num_simulations forecast_period : nat.

Lemma Forall_dict_set {V : Type} (Q : V -> Prop) (d : dict V) (k : string) (v : V) :
  Forall (fun e => Q (snd e)) d -> Q v -> Forall (fun e => Q (snd e)) (dict_set d k v).
Proof.
  intros Hd Hv. apply Forall_forall. intros kv Hin.
  apply in_dict_set in Hin. destruct Hin as [ Hin | -> ]; auto.
  rewrite Forall_forall in Hd. now apply Hd.
Qed.

Lemma foldM_app {A B : Type} (f : A -> B -> M A) (l l' : list B) : forall a g,
  foldM f (l ++ l') a g = bindM (foldM f l a) (foldM f l') g.
Proof.
  induction l as [ | x l IH ]; intros a g; simpl.
  - reflexivity.
  - unfold bindM. destruct (f a x g) as [ [ a1 g1 ] | e ]; auto.
Qed.

(** Every column of a cleaned frame of two rows or more has enough values
    for the simulation. *)
Lemma cleaned_column_enough (cleaned_data : DataFrame) (key : cell) :
  CleanedFrame cleaned_data -> 2 <= index cleaned_data -> In key (labels cleaned_data) ->
  exists s, getitem cleaned_data key = Ok (ASeries s) /\
            forallb no_text s = true /\ 2 <= length (filter notna s).
Proof.
  intros Hclean Hrows Hin.
  destruct (cleaned_getitem cleaned_data key Hclean Hin) as (s & Hget & Hc & Hnum).
  exists s. split; auto. split; [ now apply is_number_no_text | ].
  rewrite filter_notna_id by now apply is_number_notna.
  destruct Hclean as [ _ _ _ Hlen ]. rewrite Forall_forall in Hlen.
  specialize (Hlen (key, s) Hc). cbn [snd] in Hlen. now rewrite Hlen.
Qed.

(** One turn of the loop over [key_variables] on a cleaned frame of two
    rows or more: a variable that is a column gets the three arrays, any
    other is passed over. *)
Lemma simulate_variable_entry (cleaned_data : DataFrame)
  (results : dict (SimulationResult np_float)) (var : string) g :
  CleanedFrame cleaned_data -> 2 <= index cleaned_data ->
  exists results' g',
    simulate_variable cleaned_data num_simulations forecast_period results var g =
    Ok (results', g') /\
    if existsb (cell_eqb (Str var)) (labels cleaned_data)
    then exists stats, in_shape num_simulations forecast_period stats /\
                       results' = dict_set results var stats
    else results' = results /\ g' = g.
Proof.
  intros Hclean Hrows. unfold simulate_variable.
  destruct (existsb (cell_eqb (Str var)) (labels cleaned_data)) eqn:E.
  - apply existsb_exists in E. destruct E as (l & Hl & El).
    apply cell_eqb_eq in El. subst l.
    destruct (cleaned_column_enough cleaned_data (Str var) Hclean Hrows Hl)
      as (s & Hget & Htext & Hlen).
    destruct (monte_carlo_enough cleaned_data (Str var) s num_simulations
                forecast_period g Hget Htext Hlen)
      as (sims & fm & fsd & g' & Hrun & Hfm & Hfsd & Hshape & Hn & _).
    exists (dict_set results var (Simulated sims (Some fm) (Some fsd))), g'.
    split.
    + rewrite (bindM_Ok _ _ g _ g' Hrun). reflexivity.
    + exists (Simulated sims (Some fm) (Some fsd)). split; auto.
      exists sims, fm, fsd. auto.
  - exists results, g. unfold ret. auto.
Qed.

Lemma simulate_loop (cleaned_data : DataFrame) :
  CleanedFrame cleaned_data -> 2 <= index cleaned_data ->
  forall key_variables results g,
  exists results' g',
    foldM (simulate_variable cleaned_data num_simulations forecast_period)
      key_variables results g = Ok (results', g') /\
    (forall var, In var (keys results') <->
                 In var (keys results) \/
                 (In var key_variables /\ In (Str var) (labels cleaned_data))) /\
    (NoDup (keys results) -> NoDup (keys results')) /\
    (Forall (fun e => in_shape num_simulations forecast_period (snd e)) results ->
     Forall (fun e => in_shape num_simulations forecast_period (snd e)) results').
Proof.
  intros Hclean Hrows.
  induction key_variables as [ | var key_variables IH ]; intros results g.
  - exists results, g. simpl. unfold ret. repeat split; auto; tauto.
  - destruct (simulate_variable_entry cleaned_data results var g Hclean Hrows)
      as (r1 & g1 & Hstep & Hr1).
    destruct (IH r1 g1) as (results' & g' & Hfold & Hkeys & Hnd & Hall).
    exists results', g'. cbn [foldM]. rewrite (bindM_Ok _ _ g r1 g1 Hstep).
    split; [ exact Hfold | ].
    destruct (existsb (cell_eqb (Str var)) (labels cleaned_data)) eqn:E.
    + destruct Hr1 as (stats & Hstats & ->).
      assert (Hin : In (Str var) (labels cleaned_data)).
      { apply existsb_exists in E. destruct E as (l & Hl & El).
        apply cell_eqb_eq in El. now subst l. }
      split; [ | split ].
      * intros v. rewrite Hkeys, in_keys_dict_set. simpl. split.
        -- intros [ [ -> | H ] | [ H1 H2 ] ]; auto.
        -- intros [ H | [ [ <- | H1 ] H2 ] ]; auto.
      * intros Hres. apply Hnd. now apply NoDup_keys_dict_set.
      * intros Hres. apply Hall. now apply Forall_dict_set.
    + destruct Hr1 as [ -> -> ].
      split; [ | split ]; auto.
      intros v. rewrite Hkeys. simpl. split.
      * intros [ H | [ H1 H2 ] ]; auto.
      * intros [ H | [ [ <- | H1 ] H2 ] ]; auto.
        exfalso. assert (Hex : existsb (cell_eqb (Str var)) (labels cleaned_data) = true).
        { apply existsb_exists. exists (Str var). split; auto. apply cell_eqb_refl. }
        congruence.
Qed.

Variable key_variables : list string.
Variable max_lag : nat.

(** What the body of the loop of [analyze_sheets] returns for a sheet. *)
Lemma analyze_sheet_outcome (df : DataFrame) (g g' : rng)
  (r : SheetResult pvalue np_float) :
  analyze_sheet key_variables max_lag num_simulations forecast_period df g = Ok (r, g') ->
  exists cleaned_data,
    robust_clean_data df = Ok cleaned_data /\
    match r with
    | SheetError text =>
        text = "Insufficient data for analysis"%string /\ index cleaned_data < 10
    | SheetAnalysis causality_results simulation_results =>
        10 <= index cleaned_data /\
        causality_results = granger_causality_analysis cleaned_data max_lag /\
        (forall var, In var (keys simulation_results) <->
                     In var key_variables /\ In (Str var) (labels cleaned_data)) /\
        NoDup (keys simulation_results) /\
        Forall (fun entry => in_shape num_simulations forecast_period (snd entry))
               simulation_results
    end.
Proof.
  intros Hrun. unfold analyze_sheet in Hrun.
  destruct (robust_clean_data df) as [ cleaned_data | e ] eqn:Hclean.
  2: { rewrite (bindM_Raise _ _ g e) in Hrun by reflexivity. discriminate. }
  rewrite (bindM_Ok _ _ g cleaned_data g) in Hrun by reflexivity.
  pose proof (robust_clean_data_Ok df cleaned_data Hclean) as Hc.
  exists cleaned_data. split; [ reflexivity | ].
  destruct (validate_data cleaned_data 10) eqn:Hvalid; cbn [negb] in Hrun;
    unfold validate_data in Hvalid;
    rewrite (dropna_rows_cleaned cleaned_data Hc) in Hvalid.
  2: { unfold ret in Hrun. inversion Hrun; subst. apply Nat.leb_gt in Hvalid. auto. }
  apply Nat.leb_le in Hvalid.
  destruct (simulate_loop cleaned_data Hc ltac:(lia) key_variables [] g)
    as (results' & g1 & Hfold & Hkeys & Hnd & Hall).
  rewrite (bindM_Ok _ _ g results' g1 Hfold) in Hrun. unfold ret in Hrun.
  inversion Hrun; subst.
  split; [ exact Hvalid | ]. split; [ reflexivity | ].
  split; [ | split; [ apply Hnd; constructor | apply Hall; constructor ] ].
  intros var. rewrite Hkeys. cbn [keys map In]. tauto.
Qed.

(** Every entry of the report is the value of the sheet of its name. *)
Lemma analysed_in_report (sheets_data : list (string * DataFrame))
  (new : dict (SheetResult pvalue np_float)) (kv : string * SheetResult pvalue np_float) :
  Forall2 (analysed key_variables max_lag num_simulations forecast_period) sheets_data new ->
  In kv new ->
  exists entry, In entry sheets_data /\
                analysed key_variables max_lag num_simulations forecast_period entry kv.
Proof.
  induction 1 as [ | entry0 kv0 sheets new Hkv _ IH ]; simpl; intros Hin; [ tauto | ].
  destruct Hin as [ -> | Hin ].
  - exists entry0. auto.
  - destruct (IH Hin) as (entry & Hin' & Hkv'). exists entry. auto.
Qed.

(** What holds of the value of every sheet holds of every value of the
    report. *)
Lemma analyze_from_entries (Q : SheetResult pvalue np_float -> Prop) :
  (forall df g r g',
      analyze_sheet key_variables max_lag num_simulations forecast_period df g = Ok (r, g') ->
      Q r) ->
  forall sheets_data results g report g',
    Forall (fun entry => Q (snd entry)) results ->
    analyze_from key_variables max_lag num_simulations forecast_period sheets_data results g
    = Ok (report, g') ->
    Forall (fun entry => Q (snd entry)) report.
Proof.
  intros HQ. induction sheets_data as [ | [ sheet df ] sheets IH ];
    intros results g report g' Hres Hrun.
  - inversion Hrun; subst. exact Hres.
  - unfold analyze_from in Hrun. cbn [foldM snd fst] in Hrun.
    destruct (analyze_sheet key_variables max_lag num_simulations forecast_period df g)
      as [ [ r g1 ] | e ] eqn:Hr.
    + rewrite (bindM_Ok _ _ g (dict_set results sheet r) g1) in Hrun
        by (rewrite (bindM_Ok _ _ g r g1 Hr); reflexivity).
      apply (IH _ _ _ _ (Forall_dict_set Q results sheet r Hres (HQ df g r g1 Hr)) Hrun).
    + rewrite (bindM_Raise _ _ g e) in Hrun; [ discriminate | ].
      now apply bindM_Raise.
Qed.

(** The run ends with the exception of the first sheet on which the
    cleaning raises. *)
Lemma analyze_sheets_Raise (before after : list (string * DataFrame))
  (sheet : string) (df : DataFrame) (e : exn) (g : rng) :
  Forall (fun entry => exists cleaned_data,
              robust_clean_data (snd entry) = Ok cleaned_data) before ->
  robust_clean_data df = Raise e ->
  analyze_sheets (before ++ (sheet, df) :: after) key_variables max_lag num_simulations
    forecast_period g = Raise e.
Proof.
  intros Hbefore Hdf. unfold analyze_sheets. rewrite foldM_app.
  destruct (analyze_from_total key_variables max_lag num_simulations forecast_period
              before Hbefore [] g) as (report & g1 & Hrun).
  unfold analyze_from in Hrun. rewrite (bindM_Ok _ _ g report g1 Hrun).
  cbn [foldM]. apply bindM_Raise. apply bindM_Raise. cbn [snd].
  now apply analyze_sheet_Raise.
Qed.

End PipelineEntries.
(** *** Reading back a frame written as a sheet *)

Section ReadingBack.

Context {L : Library}.



End ReadingBack.
(** ** Further properties: the statements *)

Section Further.

Context {L : Library}.


(** X2.  Cleaning adds nothing to a sheet: the frame it returns has fewer
    rows than the sheet (the header row is taken off, rows are only
    dropped) and no more columns than the sheet. *)
Theorem cleaning_adds_no_row_or_column (df out : DataFrame) :
  robust_clean_data df = Ok out ->
  index out < index df /\ length (cols out) <= length (cols df).
Proof.
  intros Hout. pose proof (robust_clean_data_cleaned df) as Hc.
  destruct (time_axis df) as [ pre | e ] eqn:Hpre; [ | congruence ].
  destruct Hc as (out' & Hout' & _ & Hlabels).
  assert (out' = out) by congruence. subst out'.
  destruct (time_axis_bounds df pre Hpre) as [ Hidx Hcols ].
  split.
  - unfold robust_clean_data in Hout. rewrite Hpre in Hout. cbn [bind] in Hout.
    apply numeric_part_index in Hout. lia.
  - apply (f_equal (@length cell)) in Hlabels. unfold labels in Hlabels at 1.
    rewrite length_map in Hlabels. rewrite Hlabels. cbn [length].
    destruct (time_axis_year df pre Hpre) as ((year & rest & Hpc) & _ & _).
    unfold labels in *. rewrite Hpc in *. cbn [map tl length] in *.
    pose proof (length_filter_le (unique_label pre) (map fst rest)) as Hf.
    rewrite length_map in Hf. lia.
Qed.

(** X3.  [validate_data] accepts no frame of fewer than [min_rows] rows,
    and on a frame returned by [robust_clean_data] its [dropna] drops
    nothing: the test is the comparison of the row count of the cleaned
    frame with [min_rows]. *)
Theorem validate_data_on_cleaned_frame :
  (forall df min_rows, validate_data df min_rows = true -> min_rows <= index df)
  /\ (forall df out min_rows,
         robust_clean_data df = Ok out ->
         validate_data out min_rows = (min_rows <=? index out)).
Proof.
  split.
  - intros df min_rows H. unfold validate_data in H. apply Nat.leb_le in H.
    pose proof (index_dropna_rows_le df). lia.
  - intros df out min_rows Hout. unfold validate_data.
    now rewrite (dropna_rows_cleaned out (robust_clean_data_Ok df out Hout)).
Qed.

(** X4.  Whatever the labels of the frame, the keys of the causality
    mapping are pairwise distinct and are exactly the texts
    ["var1 causes var2"] of the pairs of labels, taken after the first
    column, that Python finds different (a missing label, [nan], is
    different from itself).  The mapping never has more than V * V entries
    for V such columns, and never more than V * (V - 1) when none of their
    labels is missing. *)
Theorem granger_keys_are_the_pairs (data : DataFrame) (max_lag : nat) :
  NoDup (keys (granger_causality_analysis data max_lag))
  /\ (forall key,
         In key (keys (granger_causality_analysis data max_lag)) <->
         exists var1 var2,
           In var1 (tl (labels data)) /\ In var2 (tl (labels data)) /\
           py_ne var1 var2 = true /\ key = causes var1 var2)
  /\ length (granger_causality_analysis data max_lag)
     <= length (tl (labels data)) * length (tl (labels data))
  /\ (forallb notna (tl (labels data)) = true ->
      length (granger_causality_analysis data max_lag)
      <= length (tl (labels data)) * (length (tl (labels data)) - 1)).
Proof.
  rewrite granger_sets. split; [ | split; [ | split ] ].
  - apply NoDup_keys_set_all. constructor.
  - intros key. rewrite in_keys_set_all. cbn [keys map]. rewrite map_map. split.
    + intros [ [] | H ]. apply in_map_iff in H. destruct H as ([ a b ] & Hk & Hp).
      apply in_ordered_pairs in Hp. cbn [entry_of fst snd] in Hk.
      exists a, b. intuition.
    + intros (a & b & Ha & Hb & Hne & ->). right. apply in_map_iff.
      exists (a, b). split; auto. apply in_ordered_pairs. auto.
  - etransitivity; [ apply length_set_all_le | ]. cbn [length]. rewrite length_map.
    apply length_ordered_pairs_square.
  - intros Hna.
    etransitivity; [ apply length_set_all_le | ]. cbn [length]. rewrite length_map.
    now apply length_ordered_pairs_le.
Qed.

(** X5.  Every value of the causality mapping is either a list of exactly
    [max_lag] p-values, one per lag from 1 to [max_lag], or a text that
    starts with ["Error: "]. *)
Theorem granger_values_are_p_values_or_errors (data : DataFrame) (max_lag : nat) :
  Forall (fun entry =>
            match snd entry with
            | PValues p_values => length p_values = max_lag
            | ErrorText text => exists description, text = ("Error: " ++ description)%string
            end)
         (granger_causality_analysis data max_lag).
Proof.
  apply Forall_forall. intros entry Hin. now apply (granger_value_shape data max_lag).
Qed.



(** X8.  With two values or more, the trial matrix of the simulation is
    made of the draws alone: its rows are [num_simulations] successive
    draws of [forecast_period] values from the normal law of the mean and
    the standard deviation of the values that are not missing, in the order
    of the draws, and the two forecasts are the mean and the standard
    deviation of its columns.  Nothing of the initial zeros is left, and
    the generator is left where the last draw left it. *)
Theorem monte_carlo_rows_are_the_draws (data : DataFrame) (variable : cell) (s : Series)
  (historical : list np_float) (num_simulations forecast_period : nat) (g : rng) :
  getitem data variable = Ok (ASeries s) ->
  mapM as_float (filter notna s) = Ok historical ->
  2 <= length (filter notna s) ->
  exists rows g',
    draw_rows (np_mean historical) (np_std historical) forecast_period num_simulations g
    = Ok (rows, g') /\
    monte_carlo_simulation data variable num_simulations forecast_period g =
    Ok ((Some {| shape := (num_simulations, forecast_period); arows := rows |},
         Some (reduce_axis0 np_mean float_zero
                 {| shape := (num_simulations, forecast_period); arows := rows |}),
         Some (reduce_axis0 np_std float_zero
                 {| shape := (num_simulations, forecast_period); arows := rows |})),
        g').
Proof.
  intros Hget Hh Hlen.
  destruct (fill_rows_draws (np_mean historical) (np_std historical)
              num_simulations forecast_period num_simulations 0 []
              (repeat (repeat float_zero forecast_period) num_simulations) g)
    as (rows & g' & Hrows & Hfold); auto using repeat_length.
  exists rows, g'. split; auto.
  unfold monte_carlo_simulation.
  rewrite (bindM_Ok _ _ g (ASeries s) g) by (unfold lift; now rewrite Hget).
  cbn [dropna_values fst snd].
  apply Nat.ltb_ge in Hlen. rewrite Hlen.
  rewrite (bindM_Ok _ _ g historical g) by (unfold lift; now rewrite Hh).
  unfold zeros. cbn [app] in Hfold.
  rewrite (bindM_Ok _ _ g _ g' Hfold). reflexivity.
Qed.

(** X9.  Every entry of the report is the value of the sheet of its
    name, and there are two kinds of them.  The entry is the error
    ["Insufficient data for analysis"] when the cleaned sheet has fewer than
    ten rows.  Otherwise it holds the causality analysis of the cleaned
    sheet and one simulation for each key variable that is a column of the
    cleaned sheet, and for no other, each with the three arrays in the
    shapes asked for: the text ["Insufficient data for simulation"] is
    stored for no variable. *)
Theorem report_entries (sheets_data : list (string * DataFrame))
  (key_variables : list string) (max_lag num_simulations forecast_period : nat)
  (g g' : rng) (report : dict (SheetResult pvalue np_float))
  (sheet : string) (data : SheetResult pvalue np_float) :
  NoDup (map fst sheets_data) ->
  analyze_sheets sheets_data key_variables max_lag num_simulations forecast_period g
  = Ok (report, g') ->
  In (sheet, data) report ->
  exists df cleaned_data,
    In (sheet, df) sheets_data /\
    robust_clean_data df = Ok cleaned_data /\
    match data with
    | SheetError text =>
        text = "Insufficient data for analysis"%string /\ index cleaned_data < 10
    | SheetAnalysis causality_results simulation_results =>
        10 <= index cleaned_data /\
        causality_results = granger_causality_analysis cleaned_data max_lag /\
        (forall var, In var (keys simulation_results) <->
                     In var key_variables /\ In (Str var) (labels cleaned_data)) /\
        NoDup (keys simulation_results) /\
        Forall (fun entry => in_shape num_simulations forecast_period (snd entry))
               simulation_results
    end.
Proof.
  intros Hnd Hrun Hin.
  apply (analyze_from_Ok key_variables max_lag num_simulations forecast_period
           sheets_data [] g report g') in Hrun; [ | exact Hnd ].
  destruct Hrun as (new & -> & Hnew & _). cbn [app] in Hin.
  destruct (analysed_in_report num_simulations forecast_period key_variables max_lag
              sheets_data new (sheet, data) Hnew Hin)
    as ([ name df ] & Hentry & Hname & g1 & g2 & Hr).
  cbn [fst snd] in *. subst name.
  destruct (analyze_sheet_outcome num_simulations forecast_period key_variables max_lag
              df g1 g2 data Hr) as (cleaned_data & Hclean & Hdata).
  exists df, cleaned_data. auto.
Qed.

(** X10.  The run raises the exception of the first sheet on which the
    cleaning raises, whatever the sheets after it: the sheets before it are
    analysed and their results are lost with the run. *)
Theorem analyze_sheets_first_exception (before after : list (string * DataFrame))
  (sheet : string) (df : DataFrame) (e : exn) (key_variables : list string)
  (max_lag num_simulations forecast_period : nat) (g : rng) :
  Forall (fun entry => exists cleaned_data,
              robust_clean_data (snd entry) = Ok cleaned_data) before ->
  robust_clean_data df = Raise e ->
  analyze_sheets (before ++ (sheet, df) :: after) key_variables max_lag num_simulations
    forecast_period g = Raise e.
Proof.
  intros Hbefore Hdf. now apply analyze_sheets_Raise.
Qed.


End Further.
(** *** What is printed *)

Section PrintingLemmas.

Context {L : Library} {C : Console}.

Local Open Scope string_scope.

Lemma forP_Ok {A : Type} (body : A -> Printer unit) (l : list A) :
  Forall (fun x => snd (body x) = Ok tt) l ->
  forP body l = (flat_map (fun x => fst (body x)) l, Ok tt).
Proof.
  induction 1 as [ | x l Hx _ IH ]; cbn [forP flat_map]; [ reflexivity | ].
  unfold bindP. now rewrite Hx, IH.
Qed.

Lemma forP_Ok_inv {A : Type} (body : A -> Printer unit) (l : list A) :
  snd (forP body l) = Ok tt -> Forall (fun x => snd (body x) = Ok tt) l.
Proof.
  induction l as [ | x l IH ]; cbn [forP]; [ constructor | ].
  unfold bindP. destruct (snd (body x)) as [ [] | e ] eqn:E; cbn [snd].
  - intros H. constructor; auto.
  - discriminate.
Qed.

Lemma lines_bindP {A B : Type} (Q : string -> Prop) (m : Printer A) (k : A -> Printer B) :
  Forall Q (fst m) -> (forall a, Forall Q (fst (k a))) -> Forall Q (fst (bindP m k)).
Proof.
  intros Hm Hk. unfold bindP. destruct (snd m); cbn [fst]; auto.
  apply Forall_app. auto.
Qed.

Lemma lines_forP {A : Type} (Q : string -> Prop) (body : A -> Printer unit) (l : list A) :
  (forall x, Forall Q (fst (body x))) -> Forall Q (fst (forP body l)).
Proof.
  intros Hbody. induction l as [ | x l IH ]; cbn [forP].
  - constructor.
  - apply lines_bindP; auto.
Qed.

Lemma lines_print (Q : string -> Prop) (text : string) :
  Q text -> Forall Q (fst (print text)).
Proof. intros H. repeat constructor. exact H. Qed.

Lemma print_lag_Ok (entry : nat * pvalue) : snd (print_lag entry) = Ok tt.
Proof. now destruct entry. Qed.

Lemma print_cause_Ok (entry : string * CausalityResult pvalue) :
  snd (print_cause entry) = Ok tt.
Proof.
  destruct entry as [ cause [ p_values | text ] ]; unfold print_cause, bindP;
    cbn [print snd]; auto.
  rewrite forP_Ok; auto. apply Forall_forall. intros x _. apply print_lag_Ok.
Qed.

Lemma print_stats_Ok (n p : nat) (entry : string * SimulationResult np_float) :
  in_shape n p (snd entry) -> snd (print_stats entry) = Ok tt.
Proof.
  destruct entry as [ variable stats ]. cbn [snd].
  intros (sims & fm & fsd & -> & _). reflexivity.
Qed.

(** The value of a sheet is printed without an exception when each of its
    simulations holds its two forecasts. *)
Lemma print_sheet_Ok (n p : nat) (sheet : string) (data : SheetResult pvalue np_float) :
  match data with
  | SheetError _ => True
  | SheetAnalysis _ simulation_results =>
      Forall (fun entry => in_shape n p (snd entry)) simulation_results
  end ->
  snd (print_sheet (sheet, data)) = Ok tt.
Proof.
  destruct data as [ text | causality_results simulation_results ]; [ reflexivity | ].
  intros Hsim. unfold print_sheet.
  rewrite (forP_Ok print_cause causality_results)
    by (apply Forall_forall; intros x _; apply print_cause_Ok).
  rewrite (forP_Ok print_stats simulation_results)
    by (apply Forall_forall; intros x Hx; apply (print_stats_Ok n p);
        rewrite Forall_forall in Hsim; now apply Hsim).
  reflexivity.
Qed.

Lemma print_results_forP (results : dict (SheetResult pvalue np_float)) :
  print_results results =
  ((banner ++ fst (forP print_sheet results))%list, snd (forP print_sheet results)).
Proof. reflexivity. Qed.

Lemma print_results_Ok (results : dict (SheetResult pvalue np_float)) :
  snd (print_results results) = Ok tt ->
  print_results results =
  ((banner ++ flat_map (fun entry => fst (print_sheet entry)) results)%list, Ok tt).
Proof.
  rewrite print_results_forP. cbn [snd]. intros H.
  now rewrite (forP_Ok print_sheet results (forP_Ok_inv _ _ H)).
Qed.

(** A report of [analyze_sheets] is printed without an exception. *)
Lemma print_report_Ok (sheets_data : list (string * DataFrame))
  (key_variables : list string) (max_lag num_simulations forecast_period : nat)
  (g g' : rng) (report : dict (SheetResult pvalue np_float)) :
  analyze_sheets sheets_data key_variables max_lag num_simulations forecast_period g
  = Ok (report, g') ->
  snd (print_results report) = Ok tt.
Proof.
  intros Hrun. rewrite print_results_forP. cbn [snd].
  assert (Hall : Forall (fun entry =>
                           forall sheet, snd (print_sheet (sheet, snd entry)) = Ok tt)
                        report).
  { apply (analyze_from_entries num_simulations forecast_period key_variables max_lag
             (fun r => forall sheet, snd (print_sheet (sheet, r)) = Ok tt))
      with (sheets_data := sheets_data) (results := []) (g := g) (g' := g');
      [ | constructor | exact Hrun ].
    intros df g0 r g1 Hr sheet.
    apply (print_sheet_Ok num_simulations forecast_period).
    apply analyze_sheet_outcome in Hr. destruct Hr as (cleaned_data & _ & Hr).
    destruct r; auto. destruct Hr as (_ & _ & _ & _ & Hsim). exact Hsim. }
  rewrite forP_Ok; auto.
  rewrite Forall_forall in *. intros [ sheet r ] Hin. apply (Hall (sheet, r) Hin).
Qed.

Lemma filter_none {A : Type} (f : A -> bool) (l : list A) :
  Forall (fun x => f x = false) l -> filter f l = [].
Proof. induction 1 as [ | x l Hx _ IH ]; simpl; auto. now rewrite Hx. Qed.

Lemma print_lag_quiet (entry : nat * pvalue) :
  Forall (fun line => announces line = false) (fst (print_lag entry)).
Proof. destruct entry. repeat constructor. Qed.

Lemma print_cause_quiet (entry : string * CausalityResult pvalue) :
  Forall (fun line => announces line = false) (fst (print_cause entry)).
Proof.
  destruct entry as [ cause [ p_values | text ] ]; unfold print_cause.
  - apply lines_bindP; [ repeat constructor | intros _ ].
    apply lines_forP. apply print_lag_quiet.
  - repeat constructor.
Qed.

Lemma print_stats_quiet (entry : string * SimulationResult np_float) :
  Forall (fun line => announces line = false) (fst (print_stats entry)).
Proof.
  destruct entry as [ variable [ simulations [ fm | ] [ fsd | ] | ] ];
    repeat constructor.
Qed.

(** Of the texts printed for a sheet, the first announces it and no other
    announces a sheet. *)
Lemma print_sheet_lines (sheet : string) (data : SheetResult pvalue np_float) :
  exists lines,
    fst (print_sheet (sheet, data)) = (newline ++ "Sheet: " ++ sheet) :: lines /\
    Forall (fun line => announces line = false) lines.
Proof.
  unfold print_sheet.
  match goal with
  | |- context [ print ?h ;;; ?k ] =>
      exists (fst k); split; [ reflexivity | ]
  end.
  apply lines_bindP; [ repeat constructor | intros _ ].
  destruct data as [ text | causality_results simulation_results ].
  - repeat constructor.
  - apply lines_bindP; [ repeat constructor | intros _ ].
    apply lines_bindP; [ apply lines_forP, print_cause_quiet | intros _ ].
    apply lines_bindP; [ repeat constructor | intros _ ].
    apply lines_forP, print_stats_quiet.
Qed.

Lemma banner_quiet : Forall (fun line => announces line = false) banner.
Proof. repeat constructor. Qed.

Lemma filter_announces (results : dict (SheetResult pvalue np_float)) :
  filter announces (flat_map (fun entry => fst (print_sheet entry)) results) =
  map (fun sheet => newline ++ "Sheet: " ++ sheet) (keys results).
Proof.
  induction results as [ | [ sheet data ] results IH ]; cbn [flat_map keys map fst].
  - reflexivity.
  - destruct (print_sheet_lines sheet data) as (lines & -> & Hq).
    rewrite filter_app. cbn [filter].
    assert (Hh : announces (newline ++ "Sheet: " ++ sheet) = true)
      by (destruct sheet; reflexivity).
    rewrite Hh, (filter_none _ _ Hq). cbn [app]. f_equal. exact IH.
Qed.

(** The texts printed for a pair of the causality mapping are among the
    texts printed for the report. *)
Lemma print_cause_in_report (results : dict (SheetResult pvalue np_float))
  (sheet : string) (causality_results : dict (CausalityResult pvalue))
  (simulation_results : dict (SimulationResult np_float))
  (entry : string * CausalityResult pvalue) (line : string) :
  snd (print_results results) = Ok tt ->
  In (sheet, SheetAnalysis causality_results simulation_results) results ->
  In entry causality_results ->
  In line (fst (print_cause entry)) ->
  In line (fst (print_results results)).
Proof.
  intros Hok Hsheet Hentry Hline. rewrite (print_results_Ok results Hok). cbn [fst].
  apply in_or_app. right. apply in_flat_map.
  exists (sheet, SheetAnalysis causality_results simulation_results). split; auto.
  unfold print_sheet.
  rewrite (forP_Ok print_cause causality_results)
    by (apply Forall_forall; intros x _; apply print_cause_Ok).
  unfold bindP at 1 2 3. cbn [print snd fst app].
  right. right. right. unfold bindP at 1. cbn [snd fst].
  apply in_or_app. left. apply in_flat_map. exists entry. auto.
Qed.

End PrintingLemmas.
(** *** What is printed: the statements *)

Section FurtherPrinting.

Context {L : Library} {C : Console}.

Local Open Scope string_scope.

(** X11.  [print_results] prints every report that [analyze_sheets]
    returns to its end, without an exception: the banner, then the texts of
    the sheets in the order of the report. *)
Theorem print_results_prints_a_report (sheets_data : list (string * DataFrame))
  (key_variables : list string) (max_lag num_simulations forecast_period : nat)
  (g g' : rng) (report : dict (SheetResult pvalue np_float)) :
  analyze_sheets sheets_data key_variables max_lag num_simulations forecast_period g
  = Ok (report, g') ->
  print_results report =
  ((banner ++ flat_map (fun entry => fst (print_sheet entry)) report)%list, Ok tt).
Proof.
  intros Hrun. apply print_results_Ok.
  exact (print_report_Ok sheets_data key_variables max_lag num_simulations
           forecast_period g g' report Hrun).
Qed.

(** X12.  When [print_results] ends without an exception it has announced
    every sheet of the report once, in the order of the report, also the
    sheets that hold an error: the printed texts that start with
    ["\nSheet: "] are those of the keys of the report. *)
Theorem print_results_announces_every_sheet
  (results : dict (SheetResult pvalue np_float)) :
  snd (print_results results) = Ok tt ->
  filter announces (fst (print_results results)) =
  map (fun sheet => newline ++ "Sheet: " ++ sheet) (keys results).
Proof.
  intros Hok. rewrite (print_results_Ok results Hok). cbn [fst].
  rewrite filter_app, (filter_none _ _ banner_quiet). cbn [app].
  apply filter_announces.
Qed.

(** X13.  A pair whose test raised is printed with the prefix twice: the
    analysis stores ["Error: "] followed by the description, and
    [print_results] prints ["Error: "] before the stored text. *)
Theorem failed_test_is_printed_with_two_prefixes
  (results : dict (SheetResult pvalue np_float)) (sheet : string)
  (data : DataFrame) (max_lag : nat)
  (simulation_results : dict (SimulationResult np_float))
  (cause text : string) :
  snd (print_results results) = Ok tt ->
  In (sheet, SheetAnalysis (granger_causality_analysis data max_lag) simulation_results)
     results ->
  In (cause, ErrorText text) (granger_causality_analysis data max_lag) ->
  exists description,
    text = "Error: " ++ description /\
    In ("      Error: Error: " ++ description) (fst (print_results results)).
Proof.
  intros Hok Hsheet Hentry.
  destruct (granger_value_shape data max_lag _ Hentry) as (description & ->).
  exists description. split; auto.
  apply (print_cause_in_report results sheet
           (granger_causality_analysis data max_lag) simulation_results
           (cause, ErrorText ("Error: " ++ description))); auto.
  right. now left.
Qed.

(** X14.  The script prints all or nothing: when the cleaning raises on
    no sheet it prints the banner and the report to the end without an
    exception; when the cleaning raises on a sheet the script ends with
    that exception and has printed nothing, whatever the sheets before. *)
Theorem main_prints_all_or_nothing (sheets_data : list (string * DataFrame)) (g : rng) :
  (Forall (fun entry => exists cleaned_data,
               robust_clean_data (snd entry) = Ok cleaned_data) sheets_data ->
   exists lines, main sheets_data g = ((banner ++ lines)%list, Ok tt))
  /\ (forall before sheet df after e,
         sheets_data = (before ++ (sheet, df) :: after)%list ->
         Forall (fun entry => exists cleaned_data,
                     robust_clean_data (snd entry) = Ok cleaned_data) before ->
         robust_clean_data df = Raise e ->
         main sheets_data g = ([], Raise e)).
Proof.
  split.
  - intros Hall. unfold main.
    destruct (analyze_from_total ["Total housing units"; "Occupied units"] 3 1000 10
                sheets_data Hall [] g) as (report & g' & Hrun).
    change (analyze_sheets sheets_data ["Total housing units"; "Occupied units"]
              3 1000 10 g = Ok (report, g')) in Hrun.
    rewrite Hrun. eexists. apply print_results_Ok.
    exact (print_report_Ok _ _ _ _ _ _ _ _ Hrun).
  - intros before sheet df after e -> Hbefore Hdf. unfold main.
    now rewrite (analyze_sheets_Raise 1000 10 ["Total housing units"; "Occupied units"] 3
                   before after sheet df e g Hbefore Hdf).
Qed.

End FurtherPrinting.

(** ** The program on the sample sheets

    The statements above at concrete sheets, evaluated with the stand-in
    library [demo], and the inputs on which the behaviour of the program
    departs from what was expected of it. *)

#[local] Existing Instance demo.

Local Open Scope string_scope.

(** C1, as first stated, fails: a sheet without rows makes the cleaning
    raise, the exception ends the run and no report is returned, not even
    for the sheet analysed before it. *)
Lemma analyze_sheets_raises :
  analyze_sheets [("housing", valid_sheet); ("people", empty_sheet)]
    ["Total housing units"; "Occupied units"] 3 1000 10 no_draw
  = Raise IndexError.
Proof. vm_compute. reflexivity. Qed.

Lemma analyze_sheets_report_witness :
  exists report g',
    analyze_sheets [("housing", valid_sheet); ("people", small_sheet)] ["A"; "C"] 3 2 3 no_draw
    = Ok (report, g')
    /\ keys report = ["housing"; "people"].
Proof.
  assert (Hnd : NoDup (map fst [("housing", valid_sheet); ("people", small_sheet)])).
  { repeat constructor; simpl; intuition discriminate. }
  destruct (analyze_sheets_report (L := demo)
              [("housing", valid_sheet); ("people", small_sheet)] ["A"; "C"] 3 2 3 no_draw Hnd)
    as [ Hiff Hkeys ].
  destruct (proj2 Hiff) as (report & g' & Hrun).
  { repeat constructor; eexists; vm_compute; reflexivity. }
  exists report, g'. split; [ exact Hrun | exact (Hkeys report g' Hrun) ].
Defined.



(** C3, as first stated, fails: the two distinct variables ["x"] and
    ["x causes x"] give two ordered pairs and a single key, hence one entry
    where two were expected. *)
Lemma granger_keys_collide :
  robust_clean_data colliding_sheet = Ok colliding_frame
  /\ NoDup (tl (labels colliding_frame))
  /\ length (tl (labels colliding_frame)) = 2
  /\ granger_causality_analysis colliding_frame 3
     = [("x causes x causes x", PValues [tt; tt; tt])].
Proof.
  split; [ vm_compute; reflexivity | ].
  split; [ | split; vm_compute; reflexivity ].
  change (NoDup [Str "x"; Str "x causes x"]).
  apply NoDup_cons; [ intros [ H | [] ]; discriminate H | ].
  apply NoDup_cons; [ intros [] | apply NoDup_nil ].
Qed.

Lemma granger_one_entry_per_pair_witness :
  granger_causality_analysis two_variables 3
  = [("A causes B", ErrorText "Error: constant column");
     ("B causes A", PValues [tt; tt; tt])]
  /\ length (granger_causality_analysis two_variables 3) = 2.
Proof.
  assert (Hnd : NoDup (tl (labels two_variables))).
  { repeat constructor; simpl; intuition discriminate. }
  assert (Hkeys : forall p q,
             In p (ordered_pairs (tl (labels two_variables))) ->
             In q (ordered_pairs (tl (labels two_variables))) ->
             causes (fst p) (snd p) = causes (fst q) (snd q) -> p = q).
  { intros p q Hp Hq Hkey. simpl in Hp, Hq.
    destruct Hp as [ <- | [ <- | [] ] ], Hq as [ <- | [ <- | [] ] ];
      try reflexivity; vm_compute in Hkey; discriminate. }
  assert (Hexact : exact_labels (labels two_variables) = true) by (vm_compute; reflexivity).
  assert (Hna : forallb notna (tl (labels two_variables)) = true)
    by (vm_compute; reflexivity).
  exact (granger_one_entry_per_pair two_variables 3 Hnd Hexact Hna Hkeys).
Defined.

(** C4, as first stated, fails: the test of the pair (["x"],
    ["x causes x"]) raises, the pair (["x causes x"], ["x"]) is tested
    later, succeeds, and is stored under the same key: the failure of the
    first pair is not in the result. *)
Lemma granger_failure_is_overwritten :
  In (Str "x", Str "x causes x") (ordered_pairs (tl (labels colliding_frame)))
  /\ getitem_list colliding_frame [Str "x"; Str "x causes x"]
     = Ok {| index := 3;
             cols := [ (Str "x", [int 1; int 1; int 1]);
                       (Str "x causes x", [int 1; int 2; int 3]) ] |}
  /\ grangercausalitytests
       {| index := 3;
          cols := [ (Str "x", [int 1; int 1; int 1]);
                    (Str "x causes x", [int 1; int 2; int 3]) ] |} 3
     = inl "constant column"
  /\ dict_get (granger_causality_analysis colliding_frame 3)
       (causes (Str "x") (Str "x causes x"))
     = Some (PValues [tt; tt; tt]).
Proof.
  split; [ vm_compute; auto | ].
  split; [ vm_compute; reflexivity | ].
  split; vm_compute; reflexivity.
Qed.

Lemma granger_failure_is_recorded_witness :
  dict_get (granger_causality_analysis two_variables 3) "A causes B"
  = Some (ErrorText "Error: constant column").
Proof.
  refine (proj1 (granger_failure_is_recorded two_variables 3 (Str "A") (Str "B")
                   {| index := 3;
                      cols := [ (Str "A", [int 1; int 1; int 1]);
                                (Str "B", [int 2; int 4; int 7]) ] |}
                   "constant column" _ _ _ _)).
  - simpl. auto.
  - reflexivity.
  - reflexivity.
  - intros q Hq Hkey. simpl in Hq.
    destruct Hq as [ <- | [ <- | [] ] ]; [ reflexivity | vm_compute in Hkey; discriminate ].
Defined.

(** C5, as first stated, fails: handed the cleaned frame itself, the
    cleaning takes its first row for a header, and returns a frame with one
    row less and other labels.  Handed a cleaned frame without rows, even
    with its labels on top, it raises. *)
Lemma clean_twice_differs :
  robust_clean_data small_sheet = Ok cleaned_small
  /\ robust_clean_data cleaned_small = Ok recleaned_small
  /\ recleaned_small <> cleaned_small
  /\ robust_clean_data text_sheet = Ok {| index := 0; cols := [ (Year, []); (Str "A", []) ] |}
  /\ robust_clean_data (with_header {| index := 0; cols := [ (Year, []); (Str "A", []) ] |})
     = Raise IndexError.
Proof.
  split; [ vm_compute; reflexivity | ].
  split; [ vm_compute; reflexivity | ].
  split; [ discriminate | ].
  split; vm_compute; reflexivity.
Qed.

Lemma clean_is_idempotent_witness :
  robust_clean_data (with_header cleaned_small) = Ok cleaned_small
  /\ index recleaned_small < index cleaned_small
  /\ robust_clean_data cleaned_empty = Raise IndexError.
Proof.
  assert (Hsmall : robust_clean_data small_sheet = Ok cleaned_small)
    by (vm_compute; reflexivity).
  assert (Hexact : exact_labels (labels cleaned_small) = true) by (vm_compute; reflexivity).
  assert (Htwice : robust_clean_data cleaned_small = Ok recleaned_small)
    by (vm_compute; reflexivity).
  assert (Htext : robust_clean_data text_sheet = Ok cleaned_empty)
    by (vm_compute; reflexivity).
  assert (Hexact0 : exact_labels (labels cleaned_empty) = true) by (vm_compute; reflexivity).
  destruct (clean_is_idempotent (L := demo) small_sheet cleaned_small Hsmall Hexact)
    as (Hback & Hfewer & _).
  destruct (clean_is_idempotent (L := demo) text_sheet cleaned_empty Htext Hexact0)
    as (_ & _ & Hnone).
  split; [ apply Hback; discriminate | ].
  split; [ exact (Hfewer recleaned_small Htwice) | exact (Hnone eq_refl) ].
Defined.



Lemma validate_data_gates_the_sheet_witness :
  validate_data cleaned_small 10 = false
  /\ analyze_sheets [("housing", valid_sheet); ("people", small_sheet)] ["A"] 3 2 3 no_draw
     = Ok (sample_report, 6)
  /\ dict_get sample_report "people" = Some (SheetError "Insufficient data for analysis").
Proof.
  assert (Hvalid : validate_data cleaned_small 10 = false) by (vm_compute; reflexivity).
  assert (Hrun : analyze_sheets (L := demo)
                   [("housing", valid_sheet); ("people", small_sheet)] ["A"] 3 2 3 no_draw
                 = Ok (sample_report, 6)) by (vm_compute; reflexivity).
  assert (Hnd : NoDup (map fst [("housing", valid_sheet); ("people", small_sheet)])).
  { change (NoDup ["housing"; "people"]).
    apply NoDup_cons; [ intros [ H | [] ]; discriminate H | ].
    apply NoDup_cons; [ intros [] | apply NoDup_nil ]. }
  assert (Hin : In ("people", small_sheet)
                   [("housing", valid_sheet); ("people", small_sheet)]).
  { right. left. reflexivity. }
  assert (Hclean : robust_clean_data (L := demo) small_sheet = Ok cleaned_small)
    by (vm_compute; reflexivity).
  split; [ exact Hvalid | ]. split; [ exact Hrun | ].
  exact (proj2 (proj2 (validate_data_gates_the_sheet (L := demo)))
           [("housing", valid_sheet); ("people", small_sheet)] ["A"] 3 2 3 no_draw
           sample_report 6 "people" small_sheet cleaned_small Hnd Hrun Hin Hclean Hvalid).
Defined.

Lemma monte_carlo_simulation_shapes_witness :
  exists simulations forecast_mean forecast_std_dev g',
    monte_carlo_simulation two_variables (Str "B") 4 3 no_draw
    = Ok ((Some simulations, Some forecast_mean, Some forecast_std_dev), g')
    /\ length forecast_mean = 3
    /\ length forecast_std_dev = 3
    /\ shape simulations = (4, 3)
    /\ length (arows simulations) = 4
    /\ Forall (fun row => length row = 3) (arows simulations).
Proof.
  apply (monte_carlo_simulation_shapes two_variables (Str "B") [int 2; int 4; int 7] 4 3 no_draw).
  - reflexivity.
  - reflexivity.
  - simpl. lia.
Defined.

Lemma monte_carlo_insufficient_data_witness :
  monte_carlo_simulation single_value (Str "A") 1000 10 no_draw = Ok ((None, None, None), no_draw)
  /\ simulate_variable single_value 1000 10 [] "A" no_draw
     = Ok ([("A", InsufficientSimulationData)], no_draw).
Proof.
  destruct (monte_carlo_insufficient_data single_value "A" [int 5] 1000 10 no_draw eq_refl)
    as (Hfew & _ & Hmarker & _).
  split.
  - apply Hfew. simpl. lia.
  - apply (Hmarker []). simpl. lia.
Defined.



(** ** The further properties on the sample sheets *)

#[local] Existing Instance demo_console.


Lemma cleaning_adds_no_row_or_column_witness :
  robust_clean_data duplicate_sheet
  = Ok {| index := 1; cols := [ (Year, [int 2001]); (Str "B", [int 5]) ] |}
  /\ 1 < index duplicate_sheet
  /\ 2 <= length (cols duplicate_sheet).
Proof.
  assert (H : robust_clean_data duplicate_sheet
              = Ok {| index := 1; cols := [ (Year, [int 2001]); (Str "B", [int 5]) ] |})
    by (vm_compute; reflexivity).
  split; [ exact H | ].
  exact (cleaning_adds_no_row_or_column (L := demo) duplicate_sheet _ H).
Defined.

Lemma validate_data_on_cleaned_frame_witness :
  validate_data cleaned_small 3 = (3 <=? index cleaned_small)%nat.
Proof.
  assert (H : robust_clean_data small_sheet = Ok cleaned_small) by (vm_compute; reflexivity).
  exact (proj2 (validate_data_on_cleaned_frame (L := demo)) small_sheet cleaned_small 3 H).
Defined.



Lemma monte_carlo_rows_are_the_draws_witness :
  exists rows g',
    draw_rows (@np_mean demo [tt; tt]) (@np_std demo [tt; tt]) 3 2 no_draw = Ok (rows, g')
    /\ monte_carlo_simulation one_variable (Str "A") 2 3 no_draw
       = Ok ((Some {| shape := (2, 3); arows := rows |},
              Some (reduce_axis0 (@np_mean demo) (@float_zero demo)
                      {| shape := (2, 3); arows := rows |}),
              Some (reduce_axis0 (@np_std demo) (@float_zero demo)
                      {| shape := (2, 3); arows := rows |})),
             g').
Proof.
  assert (Hget : getitem one_variable (Str "A") = Ok (ASeries [int 1; int 2]))
    by (vm_compute; reflexivity).
  assert (Hfloat : mapM (@as_float demo) (filter notna [int 1; int 2]) = Ok [tt; tt])
    by (vm_compute; reflexivity).
  assert (Hlen : 2 <= length (filter notna [int 1; int 2])) by (simpl; lia).
  exact (monte_carlo_rows_are_the_draws (L := demo) one_variable (Str "A")
           [int 1; int 2] [tt; tt] 2 3 no_draw Hget Hfloat Hlen).
Defined.

Lemma report_entries_witness :
  exists df cleaned_data,
    In ("housing", df) [("housing", valid_sheet); ("people", small_sheet)]
    /\ robust_clean_data df = Ok cleaned_data
    /\ 10 <= index cleaned_data
    /\ sample_causality = granger_causality_analysis cleaned_data 3
    /\ (forall var, In var (keys sample_simulations) <->
                    In var ["A"; "C"] /\ In (Str var) (labels cleaned_data))
    /\ NoDup (keys sample_simulations)
    /\ Forall (fun entry => in_shape 2 3 (snd entry)) sample_simulations.
Proof.
  assert (Hnd : NoDup (map fst [("housing", valid_sheet); ("people", small_sheet)])).
  { repeat constructor; simpl; intuition discriminate. }
  assert (Hrun : analyze_sheets [("housing", valid_sheet); ("people", small_sheet)]
                   ["A"; "C"] 3 2 3 no_draw
                 = Ok (sample_report, 6))
    by (vm_compute; reflexivity).
  assert (Hin : In ("housing", SheetAnalysis sample_causality sample_simulations)
                   sample_report)
    by (left; reflexivity).
  exact (report_entries (L := demo) [("housing", valid_sheet); ("people", small_sheet)]
           ["A"; "C"] 3 2 3 no_draw 6 sample_report "housing"
           (SheetAnalysis sample_causality sample_simulations) Hnd Hrun Hin).
Defined.

Lemma analyze_sheets_first_exception_witness :
  analyze_sheets ([("housing", valid_sheet)] ++ ("people", empty_sheet)
                    :: [("income", small_sheet)])%list
    ["A"] 3 2 3 no_draw
  = Raise IndexError.
Proof.
  assert (Hbefore : Forall (fun entry => exists cleaned_data,
                                robust_clean_data (snd entry) = Ok cleaned_data)
                           [("housing", valid_sheet)]).
  { repeat constructor. eexists. vm_compute. reflexivity. }
  assert (Hraise : robust_clean_data empty_sheet = Raise IndexError)
    by (vm_compute; reflexivity).
  exact (analyze_sheets_first_exception (L := demo) [("housing", valid_sheet)]
           [("income", small_sheet)] "people" empty_sheet IndexError ["A"] 3 2 3 no_draw
           Hbefore Hraise).
Defined.


Lemma print_results_prints_a_report_witness :
  print_results sample_report
  = ((banner ++ flat_map (fun entry => fst (print_sheet entry)) sample_report)%list, Ok tt).
Proof.
  assert (H : analyze_sheets [("housing", valid_sheet); ("people", small_sheet)]
                ["A"] 3 2 3 no_draw
              = Ok (sample_report, 6))
    by (vm_compute; reflexivity).
  exact (print_results_prints_a_report (L := demo) (C := demo_console) _ _ _ _ _ _ _ _ H).
Defined.

Lemma print_results_announces_every_sheet_witness :
  filter announces (fst (print_results sample_report))
  = map (fun sheet => newline ++ "Sheet: " ++ sheet) (keys sample_report).
Proof.
  assert (H : snd (print_results sample_report) = Ok tt) by (vm_compute; reflexivity).
  exact (print_results_announces_every_sheet (L := demo) (C := demo_console)
           sample_report H).
Defined.

Lemma failed_test_is_printed_with_two_prefixes_witness :
  exists description,
    "Error: constant column" = "Error: " ++ description
    /\ In ("      Error: Error: " ++ description) (fst (print_results failing_report)).
Proof.
  assert (Hok : snd (print_results failing_report) = Ok tt) by (vm_compute; reflexivity).
  assert (Hsheet : In ("housing",
                       SheetAnalysis (granger_causality_analysis two_variables 3) [])
                      failing_report)
    by (left; reflexivity).
  assert (Hentry : In ("A causes B", ErrorText "Error: constant column")
                      (granger_causality_analysis two_variables 3))
    by (vm_compute; left; reflexivity).
  exact (failed_test_is_printed_with_two_prefixes (L := demo) (C := demo_console)
           failing_report "housing" two_variables 3 [] "A causes B"
           "Error: constant column" Hok Hsheet Hentry).
Defined.

Lemma main_prints_all_or_nothing_witness :
  (exists lines, main [("housing", valid_sheet)] no_draw = ((banner ++ lines)%list, Ok tt))
  /\ main [("housing", valid_sheet); ("people", empty_sheet)] no_draw
     = ([], Raise IndexError).
Proof.
  assert (Hvalid : Forall (fun entry => exists cleaned_data,
                               robust_clean_data (snd entry) = Ok cleaned_data)
                          [("housing", valid_sheet)]).
  { repeat constructor. eexists. vm_compute. reflexivity. }
  assert (Hraise : robust_clean_data empty_sheet = Raise IndexError)
    by (vm_compute; reflexivity).
  split.
  - exact (proj1 (main_prints_all_or_nothing (L := demo) (C := demo_console)
                    [("housing", valid_sheet)] no_draw) Hvalid).
  - exact (proj2 (main_prints_all_or_nothing (L := demo) (C := demo_console)
                    [("housing", valid_sheet); ("people", empty_sheet)] no_draw)
             [("housing", valid_sheet)] "people" empty_sheet [] IndexError
             eq_refl Hvalid Hraise).
Defined.
